(** * Lead scoring and campaign assignment: the PL/pgSQL functions of the
    prospect-intelligence schema, embedded in Rocq.

    The functions embedded here are the six [CREATE FUNCTION] bodies of the
    schema script: [calculate_lead_score], [update_prospect_stage_on_analysis],
    [calculate_engagement_score], [get_optimal_campaign_assignment],
    [analyze_reply_basic] and [update_engagement_on_activity].

    Conventions of the embedding.
    - A nullable SQL value is an [option]; [None] is NULL.  Conditions are
      evaluated in SQL's three-valued logic ([bool3]); an [IF], [ELSIF] or
      [CASE WHEN] arm is taken only when its condition is TRUE.
    - [INTEGER] arithmetic is checked: a result outside the 32-bit range
      raises [integer_out_of_range] (PostgreSQL does not wrap).  [COUNT]
      results are [BIGINT] and are kept as unbounded [Z].
    - [DECIMAL]/[NUMERIC] values are exact rationals [Q], so a quotient is
      exact (PostgreSQL keeps at least 16 significant digits of it); the cast
      to [INTEGER] rounds to the nearest integer, ties away from zero.
    - [TIMESTAMPTZ] is a count of microseconds; [DATE(...)] is taken in UTC.
    - [LEAST] and [GREATEST] ignore NULL arguments, as PostgreSQL's do.
    - Columns restricted by a [CHECK (... IN (...))] constraint are
      inductive types; free [TEXT]/[VARCHAR] values are strings.
    - Only the columns that the six functions read or write are kept in the
      row records.
    - A [RECORD] variable has the row type of the [SELECT] that fills it as
      a whole, and none before that: a statement that assigns to a field of
      a record not yet assigned raises [record_not_assigned].  The function
      [calculate_engagement_score] does this with [v_activity_metrics]. *)

From Stdlib Require Import ZArith QArith Qround List String Ascii Bool Lia.
From Stdlib Require Import DecimalString.
Import ListNotations.

Local Open Scope Z_scope.

(* ------------------------------------------------------------------ *)
(** ** SQL values and operators *)

Module Sql.

(** Errors a statement can raise; the enclosing statement is then aborted. *)
Inductive sql_error : Type :=
| integer_out_of_range
| check_violation
| record_not_assigned.

Inductive exec (A : Type) : Type :=
| Ok (a : A)
| Raise (e : sql_error).
Arguments Ok {A} a.
Arguments Raise {A} e.

Definition bind {A B : Type} (c : exec A) (k : A -> exec B) : exec B :=
  match c with
  | Ok a => k a
  | Raise e => Raise e
  end.

(** A PL/pgSQL variable declared [RECORD]: it has no row type, and no
    fields, until a row is assigned to it as a whole; [None] is the variable
    before that. *)
Definition record_var (R : Type) : Type := option R.

(** [SELECT ... INTO rec.f1, rec.f2, ...]: the targets are fields of [rec],
    so [rec] must hold a row already ("record is not assigned yet"
    otherwise); [set_fields] stores the selected values in that row. *)
Definition select_into_fields {R : Type} (rec : record_var R)
    (set_fields : R -> R) : exec R :=
  match rec with
  | Some row => Ok (set_fields row)
  | None => Raise record_not_assigned
  end.

(** Three-valued logic: [None] is UNKNOWN. *)
Definition bool3 : Type := option bool.

Definition and3 (a b : bool3) : bool3 :=
  match a, b with
  | Some false, _ | _, Some false => Some false
  | Some true, Some true => Some true
  | _, _ => None
  end.

Definition or3 (a b : bool3) : bool3 :=
  match a, b with
  | Some true, _ | _, Some true => Some true
  | Some false, Some false => Some false
  | _, _ => None
  end.

(** The test made by [IF c THEN] and by [CASE WHEN c THEN]. *)
Definition is_true (c : bool3) : bool :=
  match c with
  | Some true => true
  | _ => false
  end.

Definition cmp3 {A : Type} (f : A -> A -> bool) (a b : option A) : bool3 :=
  match a, b with
  | Some x, Some y => Some (f x y)
  | _, _ => None
  end.

Definition coalesce {A : Type} (a : option A) (d : A) : A :=
  match a with
  | Some x => x
  | None => d
  end.

(** *** INTEGER *)

Definition int4_min : Z := -2147483648.
Definition int4_max : Z := 2147483647.

Definition in_int4 (z : Z) : bool := (int4_min <=? z) && (z <=? int4_max).

Definition int4_check (z : Z) : exec Z :=
  if in_int4 z then Ok z else Raise integer_out_of_range.

Definition int4_op (f : Z -> Z -> Z) (a b : option Z) : exec (option Z) :=
  match a, b with
  | Some x, Some y => bind (int4_check (f x y)) (fun z => Ok (Some z))
  | _, _ => Ok None
  end.

Definition int4_add : option Z -> option Z -> exec (option Z) := int4_op Z.add.
Definition int4_sub : option Z -> option Z -> exec (option Z) := int4_op Z.sub.
Definition int4_mul : option Z -> option Z -> exec (option Z) := int4_op Z.mul.

Definition int_gt : option Z -> option Z -> bool3 := cmp3 Z.gtb.
Definition int_ge : option Z -> option Z -> bool3 := cmp3 Z.geb.

(** [LEAST(a, b)] and [GREATEST(a, b)]: NULL arguments are ignored. *)
Definition pick {A : Type} (f : A -> A -> A) (a b : option A) : option A :=
  match a, b with
  | Some x, Some y => Some (f x y)
  | Some x, None => Some x
  | None, y => y
  end.

Definition least_int : option Z -> option Z -> option Z := pick Z.min.
Definition greatest_int : option Z -> option Z -> option Z := pick Z.max.

(** *** NUMERIC *)

Definition Qltb (a b : Q) : bool := negb (Qle_bool b a).

Definition qmin (a b : Q) : Q := if Qle_bool a b then a else b.
Definition qmax (a b : Q) : Q := if Qle_bool a b then b else a.

Definition least_num : option Q -> option Q -> option Q := pick qmin.

Definition num_gt (a b : option Q) : bool3 := cmp3 (fun x y => Qltb y x) a b.

Definition num_op (f : Q -> Q -> Q) (a b : option Q) : option Q :=
  match a, b with
  | Some x, Some y => Some (f x y)
  | _, _ => None
  end.

Definition num_mul : option Q -> option Q -> option Q := num_op Qmult.
Definition num_div : option Q -> option Q -> option Q := num_op Qdiv.

(** [x::DECIMAL] for an integer [x]. *)
Definition to_numeric (a : option Z) : option Q := option_map inject_Z a.

(** [ROUND(q)]: nearest integer, ties away from zero. *)
Definition round_half_away (q : Q) : Z :=
  if Qle_bool 0 q then Qfloor (q + (1 # 2)) else - Qfloor ((- q) + (1 # 2)).

(** [q::INTEGER], also the cast made when a numeric is stored in an
    [INTEGER] variable. *)
Definition numeric_to_int4 (a : option Q) : exec (option Z) :=
  match a with
  | Some q => bind (int4_check (round_half_away q)) (fun z => Ok (Some z))
  | None => Ok None
  end.

(** *** TEXT *)

Definition lower_char (c : ascii) : ascii :=
  let n := nat_of_ascii c in
  if (65 <=? n)%nat && (n <=? 90)%nat then ascii_of_nat (n + 32) else c.

(** [LOWER(s)] on the ASCII letters. *)
Fixpoint lower (s : string) : string :=
  match s with
  | EmptyString => EmptyString
  | String c r => String (lower_char c) (lower r)
  end.

(** [needle] occurs somewhere in [hay]. *)
Fixpoint contains (needle hay : string) : bool :=
  String.prefix needle hay
  || match hay with
     | EmptyString => false
     | String _ r => contains needle r
     end.

(** The branches of a regular expression, cut at each [|]. *)
Fixpoint split_bar (pat : string) : string * list string :=
  match pat with
  | EmptyString => (EmptyString, [])
  | String c p =>
      let (a, r) := split_bar p in
      if Ascii.eqb c "|" then (EmptyString, a :: r) else (String c a, r)
  end.

Definition alternatives (pat : string) : list string :=
  let (a, r) := split_bar pat in a :: r.

(** [s ~ pat] for the patterns of the schema: words of letters and blanks,
    and alternations of such words.  An unanchored pattern of ordinary
    characters matches when it occurs in [s]. *)
Definition regex_match (s pat : string) : bool :=
  existsb (fun alt => contains alt s) (alternatives pat).

(** [s ~ ANY(arr)]. *)
Definition regex_match_any (s : string) (arr : list string) : bool :=
  existsb (regex_match s) arr.

(** [s LIKE pat] with the wildcards [%] and [_]. *)
Fixpoint like_chars (p s : list ascii) {struct p} : bool :=
  match p with
  | [] => match s with [] => true | _ :: _ => false end
  | c :: p' =>
      if Ascii.eqb c "%" then
        (fix star (t : list ascii) : bool :=
           like_chars p' t
           || match t with
              | [] => false
              | _ :: t' => star t'
              end) s
      else
        match s with
        | [] => false
        | d :: s' => (Ascii.eqb c "_" || Ascii.eqb c d) && like_chars p' s'
        end
  end.

Definition like (s pat : string) : bool :=
  like_chars (list_ascii_of_string pat) (list_ascii_of_string s).

(** [s ILIKE pat]: [LIKE] without regard to letter case. *)
Definition ilike (s pat : string) : bool := like (lower s) (lower pat).

(** [s ILIKE ANY(arr)]; UNKNOWN when [s] is NULL. *)
Definition ilike_any (s : option string) (arr : list string) : bool3 :=
  match s with
  | Some t => Some (existsb (ilike t) arr)
  | None => None
  end.

(** The text of an integer, as [format('%s', n)] prints it; NULL prints
    as the empty string. *)
Definition int_text (a : option Z) : string :=
  match a with
  | Some z => NilZero.string_of_int (Z.to_int z)
  | None => EmptyString
  end.

End Sql.

Import Sql.

Declare Scope exec_scope.
Delimit Scope exec_scope with exec.
Notation "x <- c ;; k" := (bind c (fun x => k))
  (at level 61, c at next level, right associativity) : exec_scope.
Local Open Scope string_scope.
Local Open Scope Z_scope.
Local Open Scope exec_scope.

(* ------------------------------------------------------------------ *)
(** ** analyze_reply_basic *)

(** The JSON object built by [analyze_reply_basic]. *)
Record reply_analysis : Type := mk_reply_analysis {
  sentiment : string;
  intent : string;
  confidence : string;
  requires_human_review : bool
}.

Definition v_keywords_positive : list string :=
  ["interested"; "yes"; "sounds good"; "tell me more"; "schedule"; "call";
   "meeting"; "demo"; "pricing"; "learn more"].
Definition v_keywords_negative : list string :=
  ["not interested"; "no"; "remove"; "unsubscribe"; "stop"; "spam"; "delete";
   "busy"; "no thanks"].
Definition v_keywords_meeting : list string :=
  ["meeting"; "call"; "demo"; "schedule"; "chat"; "discuss"].
Definition v_keywords_pricing : list string :=
  ["price"; "cost"; "pricing"; "budget"; "quote"; "proposal"].

Definition analyze_reply_basic (p_reply_content : option string)
  : reply_analysis :=
  let v_sentiment := "neutral" in
  let v_intent := "general_inquiry" in
  let v_content_lower := lower (coalesce p_reply_content "") in
  (* Sentiment analysis *)
  let v_sentiment :=
    if regex_match_any v_content_lower v_keywords_positive then "positive"
    else if regex_match_any v_content_lower v_keywords_negative then "negative"
    else v_sentiment in
  (* Intent classification *)
  let v_intent :=
    if regex_match_any v_content_lower v_keywords_meeting then "meeting_request"
    else if regex_match_any v_content_lower v_keywords_pricing
      then "pricing_inquiry"
    else if regex_match v_content_lower "remove|unsubscribe"
      then "unsubscribe_request"
    else if String.eqb v_sentiment "positive" then "interested"
    else if String.eqb v_sentiment "negative" then "not_interested"
    else v_intent in
  {| sentiment := v_sentiment;
     intent := v_intent;
     confidence :=
       if regex_match_any v_content_lower
            (v_keywords_positive ++ v_keywords_negative)
       then "high" else "medium";
     requires_human_review :=
       (String.eqb v_sentiment "positive" || String.eqb v_sentiment "interested")
       || String.eqb v_intent "meeting_request" |}.

(* ------------------------------------------------------------------ *)
(** ** get_optimal_campaign_assignment *)

(** The JSON object built by [get_optimal_campaign_assignment]. *)
Record campaign_assignment : Type := mk_campaign_assignment {
  campaign_id : string;
  sequence_id : string;
  delay_hours : Q;
  priority : string;
  assignment_reason : string
}.

(** The four variables the body assigns before it builds the result. *)
Record assignment_vars : Type := mk_assignment_vars {
  v_campaign_id : string;
  v_sequence_id : string;
  v_delay_hours : Q;
  v_priority : string
}.

(** Default values, then the [IF ... ELSIF ... ELSIF] chain. *)
Definition select_tier (p_lead_score : option Z) (p_roi_potential : option Q)
    (p_opportunities_count : option Z) : assignment_vars :=
  if is_true (or3 (int_ge p_lead_score (Some 80))
                  (num_gt p_roi_potential (Some (inject_Z 50000)))) then
    (* High-value enterprise leads *)
    mk_assignment_vars "entelech_enterprise_vip" "seq_enterprise_executive"
      (1 # 2) "high"
  else if is_true (or3 (int_ge p_lead_score (Some 60))
                       (and3 (num_gt p_roi_potential (Some (inject_Z 25000)))
                             (int_ge p_opportunities_count (Some 2)))) then
    (* Professional service prospects *)
    mk_assignment_vars "entelech_professional_priority"
      "seq_professional_priority" (inject_Z 1) "medium"
  else if is_true (or3 (int_ge p_lead_score (Some 40))
                       (int_ge p_opportunities_count (Some 1))) then
    (* Warm prospects with automation needs *)
    mk_assignment_vars "entelech_warm_prospects" "seq_warm_nurture"
      (inject_Z 4) "medium"
  else
    mk_assignment_vars "entelech_cold_outreach" "seq_cold_education"
      (inject_Z 24) "low".

Definition regulated_patterns : list string :=
  ["%legal%"; "%healthcare%"; "%financial%"].

(** Industry-specific adjustments. *)
Definition industry_adjust (p_industry : option string) (v : assignment_vars)
  : assignment_vars :=
  if is_true (ilike_any p_industry regulated_patterns) then
    mk_assignment_vars (v_campaign_id v)
      (v_sequence_id v ++ "_compliance")
      (qmax (v_delay_hours v) (inject_Z 2))
      (v_priority v)
  else v.

(** [p_company_size IN ('enterprise', 'large')]. *)
Definition size_in_enterprise_large (p_company_size : option string) : bool3 :=
  or3 (cmp3 String.eqb p_company_size (Some "enterprise"))
      (cmp3 String.eqb p_company_size (Some "large")).

(** Company size adjustments. *)
Definition size_adjust (p_company_size : option string) (v : assignment_vars)
  : assignment_vars :=
  if is_true (size_in_enterprise_large p_company_size) then
    mk_assignment_vars (v_campaign_id v) (v_sequence_id v)
      (qmax (v_delay_hours v) (inject_Z 4)) (v_priority v)
  else v.

(** [ROUND(p_roi_potential / 1000)]. *)
Definition roi_thousands (p_roi_potential : option Q) : option Z :=
  option_map (fun q => round_half_away (q / inject_Z 1000)) p_roi_potential.

Definition reason_text (p_lead_score : option Z) (p_roi_potential : option Q)
    (p_opportunities_count : option Z) : string :=
  "Lead Score: " ++ int_text p_lead_score
  ++ ", ROI: $" ++ int_text (roi_thousands p_roi_potential)
  ++ "K, Opportunities: " ++ int_text p_opportunities_count.

Definition get_optimal_campaign_assignment (p_lead_score : option Z)
    (p_roi_potential : option Q) (p_industry p_company_size : option string)
    (p_opportunities_count : option Z) : campaign_assignment :=
  let v := select_tier p_lead_score p_roi_potential p_opportunities_count in
  let v := industry_adjust p_industry v in
  let v := size_adjust p_company_size v in
  {| campaign_id := v_campaign_id v;
     sequence_id := v_sequence_id v;
     delay_hours := v_delay_hours v;
     priority := v_priority v;
     assignment_reason :=
       reason_text p_lead_score p_roi_potential p_opportunities_count |}.

(* ------------------------------------------------------------------ *)
(** ** The tables *)

Definition uuid : Type := N.
(** Microseconds since the epoch. *)
Definition timestamptz : Type := Z.

Module Size.
Inductive t : Type := startup | small | medium | large | enterprise.
End Size.

Module Stage.
Inductive t : Type :=
| identified | analyzing | analyzed | contacted | qualified | disqualified
| converted.
End Stage.

Module Scraping.
Inductive t : Type := pending | in_progress | completed | failed | timeout.
End Scraping.

Module Tier.
Inductive t : Type := basic_2_5k | professional_7_5k | enterprise_15k.
End Tier.

Module LeadStatus.
Inductive t : Type :=
| active | paused | completed | unsubscribed | bounced | complained | replied.
End LeadStatus.

Module Temperature.
Inductive t : Type := cold | warm | hot | interested | qualified.
End Temperature.

Module Activity.
Inductive t : Type :=
| sent | delivered | opened | clicked | replied | bounced | unsubscribed
| complained.
End Activity.

Module Sentiment.
Inductive t : Type :=
| positive | neutral | negative | interested | not_interested.
End Sentiment.

Record company : Type := mk_company {
  c_id : uuid;
  company_size_category : option Size.t;
  status : Stage.t
}.

Record website_analysis : Type := mk_website_analysis {
  wa_company_id : uuid;
  analysis_version : Z;
  scraping_status : Scraping.t
}.

Record customer_journey_analysis : Type := mk_customer_journey_analysis {
  cja_company_id : uuid
}.

Record automation_opportunity : Type := mk_automation_opportunity {
  ao_company_id : uuid;
  service_tier : option Tier.t;
  priority_score : option Z
}.

Record prospect_tracking_row : Type := mk_prospect_tracking_row {
  pt_company_id : uuid;
  lead_score : option Z
}.

Record instantly_integration : Type := mk_instantly_integration {
  ii_id : uuid;
  lead_status : option LeadStatus.t;
  emails_sent : option Z;
  emails_opened : option Z;
  emails_clicked : option Z;
  emails_replied : option Z;
  emails_bounced : option Z;
  first_email_sent_at : option timestamptz;
  last_activity_at : option timestamptz;
  lead_temperature : option Temperature.t;
  engagement_score : option Z
}.

Record instantly_email_activity : Type := mk_instantly_email_activity {
  integration_id : uuid;
  activity_type : Activity.t;
  activity_timestamp : timestamptz;
  reply_sentiment : option Sentiment.t;
  reply_intent : option string
}.

Record database : Type := mk_database {
  companies : list company;
  website_analyses : list website_analysis;
  customer_journey_analyses : list customer_journey_analysis;
  automation_opportunities : list automation_opportunity;
  prospect_tracking : list prospect_tracking_row;
  instantly_integrations : list instantly_integration;
  instantly_email_activities : list instantly_email_activity
}.

(** [col = p] for a key column that is NOT NULL and a possibly NULL [p]. *)
Definition key_eq (col : uuid) (p : option uuid) : bool :=
  is_true (cmp3 N.eqb (Some col) p).

(** [SELECT e INTO v FROM rows]: the first row's value, NULL with no row. *)
Definition select_into {R A : Type} (e : R -> option A) (rows : list R)
  : option A :=
  match rows with
  | [] => None
  | r :: _ => e r
  end.

(** [UPDATE t SET ... WHERE p]: [f] is evaluated for each row that
    satisfies [p], in turn; an error aborts the statement. *)
Fixpoint update_where {R : Type} (p : R -> bool) (f : R -> exec R)
    (rows : list R) : exec (list R) :=
  match rows with
  | [] => Ok []
  | r :: rest =>
      r' <- (if p r then f r else Ok r) ;;
      rest' <- update_where p f rest ;;
      Ok (r' :: rest')
  end.

(** [CHECK (x BETWEEN 0 AND 100)]: violated only when the test is FALSE. *)
Definition check_between_0_100 (x : option Z) : exec unit :=
  match and3 (int_ge x (Some 0)) (int_ge (Some 100) x) with
  | Some false => Raise check_violation
  | _ => Ok tt
  end.

(** [AVG(x)] over the non-NULL values; NULL when there is none. *)
Definition non_null {A : Type} (xs : list (option A)) : list A :=
  flat_map (fun x => match x with Some v => [v] | None => [] end) xs.

Definition avg (xs : list (option Z)) : option Q :=
  match non_null xs with
  | [] => None
  | ys => Some (Qdiv (inject_Z (fold_right Z.add 0 ys))
                      (inject_Z (Z.of_nat (List.length ys))))
  end.

(** [q1 UNION q2] of two one-column queries: duplicates are removed. *)
Definition union_distinct (l1 l2 : list Z) : list Z :=
  nodup Z.eq_dec (l1 ++ l2).

Definition count {R : Type} (rows : list R) : Z := Z.of_nat (List.length rows).

(* ------------------------------------------------------------------ *)
(** ** calculate_lead_score *)

(** Company size scoring (0-25 points). *)
Definition company_size_score (db : database) (p_company_id : option uuid)
  : option Z :=
  select_into
    (fun c => Some match company_size_category c with
                   | Some Size.enterprise => 25
                   | Some Size.large => 20
                   | Some Size.medium => 15
                   | Some Size.small => 10
                   | _ => 5
                   end)
    (filter (fun c => key_eq (c_id c) p_company_id) (companies db)).

(** Automation opportunity scoring (0-35 points). *)
Definition automation_score (db : database) (p_company_id : option uuid)
  : exec (option Z) :=
  let ao := filter (fun ao => key_eq (ao_company_id ao) p_company_id)
                   (automation_opportunities db) in
  numeric_to_int4
    (least_num (Some (inject_Z 35))
       (num_mul (Some (coalesce (avg (map priority_score ao)) (inject_Z 0)))
                (Some (35 # 100)))).

(** The rows of the [analysis_count] subquery. *)
Definition analysis_count (db : database) (p_company_id : option uuid)
  : list Z :=
  union_distinct
    (map (fun _ => 1)
       (filter (fun wa => key_eq (wa_company_id wa) p_company_id
                          && match scraping_status wa with
                             | Scraping.completed => true
                             | _ => false
                             end)
               (website_analyses db)))
    (map (fun _ => 1)
       (filter (fun cja => key_eq (cja_company_id cja) p_company_id)
               (customer_journey_analyses db))).

(** Engagement scoring based on analysis completeness (0-25 points). *)
Definition analysis_score (db : database) (p_company_id : option uuid)
  : option Z :=
  let n := count (analysis_count db p_company_id) in
  Some (if n >=? 3 then 25      (* Multiple analyses completed *)
        else if n =? 2 then 20
        else if n =? 1 then 15
        else 0).

(** Service fit scoring (0-15 points). *)
Definition fit_score (db : database) (p_company_id : option uuid)
  : option Z :=
  Some (Z.min 15
          (count (filter (fun ao => key_eq (ao_company_id ao) p_company_id
                                    && match service_tier ao with
                                       | Some _ => true
                                       | None => false
                                       end)
                         (automation_opportunities db)) * 5)).

(** The value of [v_score] before the final cap. *)
Definition lead_score_sum (db : database) (p_company_id : option uuid)
  : exec (option Z) :=
  let v_company_size_score := company_size_score db p_company_id in
  v_automation_score <- automation_score db p_company_id ;;
  let v_engagement_score := analysis_score db p_company_id in
  let v_fit_score := fit_score db p_company_id in
  s <- int4_add v_company_size_score v_automation_score ;;
  s <- int4_add s v_engagement_score ;;
  int4_add s v_fit_score.

Definition calculate_lead_score (db : database) (p_company_id : option uuid)
  : exec (option Z) :=
  v_score <- lead_score_sum db p_company_id ;;
  Ok (least_int (Some 100) v_score).  (* Cap at 100 *)

(* ------------------------------------------------------------------ *)
(** ** update_prospect_stage_on_analysis *)

(** The [CASE] of the [UPDATE companies] statement. *)
Definition next_stage (s : Stage.t) : Stage.t :=
  match s with
  | Stage.identified => Stage.analyzing
  | Stage.analyzing => Stage.analyzed
  | _ => s
  end.

(** The condition of the trigger's [IF]; [OLD] is absent on INSERT. *)
Definition analysis_advances (NEW : website_analysis)
    (OLD : option website_analysis) : bool3 :=
  or3 (Some match scraping_status NEW with
            | Scraping.completed => true
            | _ => false
            end)
      (int_gt (Some (analysis_version NEW))
              (Some (coalesce (option_map analysis_version OLD) 0))).

Definition set_companies (db : database) (cs : list company) : database :=
  mk_database cs (website_analyses db) (customer_journey_analyses db)
    (automation_opportunities db) (prospect_tracking db)
    (instantly_integrations db) (instantly_email_activities db).

Definition set_prospect_tracking (db : database)
    (pt : list prospect_tracking_row) : database :=
  mk_database (companies db) (website_analyses db)
    (customer_journey_analyses db) (automation_opportunities db) pt
    (instantly_integrations db) (instantly_email_activities db).

(** The trigger runs AFTER INSERT OR UPDATE on [website_analyses], for each
    row: [db] already holds [NEW].  The value it returns is ignored by
    PostgreSQL, so the embedding returns the new state only. *)
Definition update_prospect_stage_on_analysis (db : database)
    (NEW : website_analysis) (OLD : option website_analysis)
  : exec database :=
  if is_true (analysis_advances NEW OLD) then
    let db1 :=
      set_companies db
        (map (fun c =>
                if N.eqb (c_id c) (wa_company_id NEW)
                then mk_company (c_id c) (company_size_category c)
                       (next_stage (status c))
                else c)
             (companies db)) in
    (* Update lead score *)
    pt <- update_where
            (fun r => N.eqb (pt_company_id r) (wa_company_id NEW))
            (fun r =>
               s <- calculate_lead_score db1 (Some (wa_company_id NEW)) ;;
               _ <- check_between_0_100 s ;;
               Ok (mk_prospect_tracking_row (pt_company_id r) s))
            (prospect_tracking db1) ;;
    Ok (set_prospect_tracking db1 pt)
  else Ok db.

(* ------------------------------------------------------------------ *)
(** ** calculate_engagement_score *)

(** The row selected into [v_email_metrics]. *)
Record email_metrics : Type := mk_email_metrics {
  m_emails_sent : option Z;
  m_emails_opened : option Z;
  m_emails_clicked : option Z;
  m_emails_replied : option Z;
  m_emails_bounced : option Z;
  days_since_first_email : option Q;
  days_since_last_activity : option Q
}.

Definition microseconds_per_day : Z := 86400 * 1000000.

(** [EXTRACT(EPOCH FROM (NOW() - t))/86400]. *)
Definition days_since (now : timestamptz) (t : option timestamptz)
  : option Q :=
  option_map
    (fun t0 => Qdiv (Qdiv (inject_Z (now - t0)) (inject_Z 1000000))
                    (inject_Z 86400))
    t.

(** Get email metrics: all fields are NULL when no row has the id. *)
Definition get_email_metrics (db : database) (now : timestamptz)
    (p_integration_id : option uuid) : email_metrics :=
  match filter (fun r => key_eq (ii_id r) p_integration_id)
               (instantly_integrations db) with
  | [] => mk_email_metrics None None None None None None None
  | r :: _ =>
      mk_email_metrics (emails_sent r) (emails_opened r) (emails_clicked r)
        (emails_replied r) (emails_bounced r)
        (days_since now (first_email_sent_at r))
        (days_since now (last_activity_at r))
  end.

(** Open rate scoring (0-15 points). *)
Definition open_rate_term (m : email_metrics) : exec (option Z) :=
  r <- numeric_to_int4
         (num_mul (num_mul (num_div (to_numeric (m_emails_opened m))
                                    (to_numeric (m_emails_sent m)))
                           (Some (inject_Z 100)))
                  (Some (6 # 10))) ;;
  Ok (least_int (Some 15) r).

(** Click rate scoring (0-20 points). *)
Definition click_rate_term (m : email_metrics) : exec (option Z) :=
  r <- numeric_to_int4
         (num_mul (num_mul (num_div (to_numeric (m_emails_clicked m))
                                    (to_numeric (m_emails_opened m)))
                           (Some (inject_Z 100)))
                  (Some (667 # 100))) ;;
  Ok (least_int (Some 20) r).

(** Reply scoring (0-25 points). *)
Definition reply_term (m : email_metrics) : exec (option Z) :=
  r <- int4_mul (m_emails_replied m) (Some 25) ;;
  Ok (least_int (Some 25) r).

(** Penalty for bounces: the amount subtracted. *)
Definition bounce_penalty (m : email_metrics) : exec (option Z) :=
  int4_mul (m_emails_bounced m) (Some 5).

(** Base scoring from email interactions (0-60 points). *)
Definition email_interaction_score (m : email_metrics) (v_score : option Z)
  : exec (option Z) :=
  if is_true (int_gt (m_emails_sent m) (Some 0)) then
    t <- open_rate_term m ;;
    v_score <- int4_add v_score t ;;
    v_score <- (if is_true (int_gt (m_emails_opened m) (Some 0)) then
                  t <- click_rate_term m ;;
                  int4_add v_score t
                else Ok v_score) ;;
    t <- reply_term m ;;
    v_score <- int4_add v_score t ;;
    t <- bounce_penalty m ;;
    int4_sub v_score t
  else Ok v_score.

(** Recent activity bonus. *)
Definition recency_bonus (d : Q) : option Z :=
  if Qle_bool d (inject_Z 1) then Some 20
  else if Qle_bool d (inject_Z 7) then Some 15
  else if Qle_bool d (inject_Z 30) then Some 10
  else if Qle_bool d (inject_Z 90) then Some 5
  else None.

(** Time-based engagement (0-20 points). *)
Definition time_based_score (m : email_metrics) (v_score : option Z)
  : exec (option Z) :=
  match days_since_last_activity m with
  | Some d =>
      match recency_bonus d with
      | Some b => int4_add v_score (Some b)
      | None => Ok v_score
      end
  | None => Ok v_score
  end.

(** [DATE(t)]. *)
Definition date_of (t : timestamptz) : Z := t / microseconds_per_day.

(** The activities of the integration in the trailing 30 days. *)
Definition recent_activities (db : database) (now : timestamptz)
    (p_integration_id : option uuid) : list instantly_email_activity :=
  filter (fun a => key_eq (integration_id a) p_integration_id
                   && (activity_timestamp a
                       >? now - 30 * microseconds_per_day))
         (instantly_email_activities db).

(** [COUNT(DISTINCT DATE(activity_timestamp))]. *)
Definition active_days (db : database) (now : timestamptz)
    (p_integration_id : option uuid) : Z :=
  count (nodup Z.eq_dec
           (map (fun a => date_of (activity_timestamp a))
                (recent_activities db now p_integration_id))).

(** The two fields that the function names in [v_activity_metrics]. *)
Record activity_metrics : Type := mk_activity_metrics {
  total_activities : Z;
  am_active_days : Z
}.

(** Activity frequency bonus (0-20 points).  The two counts are selected
    into the fields [total_activities] and [active_days] of
    [v_activity_metrics]; only the second is read afterwards. *)
Definition activity_frequency_score (db : database) (now : timestamptz)
    (p_integration_id : option uuid)
    (v_activity_metrics : record_var activity_metrics) (v_score : option Z)
  : exec (option Z) :=
  am <- select_into_fields v_activity_metrics
          (fun _ =>
             mk_activity_metrics
               (count (recent_activities db now p_integration_id))
               (active_days db now p_integration_id)) ;;
  if am_active_days am >? 0 then
    int4_add v_score (Some (Z.min 20 (am_active_days am * 2)))
  else Ok v_score.

(** The value of [v_score] when the activity query is reached. *)
Definition score_before_activity_query (db : database) (now : timestamptz)
    (p_integration_id : option uuid) : exec (option Z) :=
  let v_score := Some 0 in
  let v_email_metrics := get_email_metrics db now p_integration_id in
  v_score <- email_interaction_score v_email_metrics v_score ;;
  time_based_score v_email_metrics v_score.

(** The value of [v_score] before the final cap.  [v_activity_metrics] is
    declared [RECORD] and no row is ever assigned to it. *)
Definition engagement_score_sum (db : database) (now : timestamptz)
    (p_integration_id : option uuid) : exec (option Z) :=
  let v_activity_metrics : record_var activity_metrics := None in
  v_score <- score_before_activity_query db now p_integration_id ;;
  activity_frequency_score db now p_integration_id v_activity_metrics v_score.

Definition calculate_engagement_score (db : database) (now : timestamptz)
    (p_integration_id : option uuid) : exec (option Z) :=
  v_score <- engagement_score_sum db now p_integration_id ;;
  (* Cap score between 0 and 100 *)
  Ok (greatest_int (Some 0) (least_int (Some 100) v_score)).

(* ------------------------------------------------------------------ *)
(** ** update_engagement_on_activity *)

Definition is_engagement_activity (a : Activity.t) : bool :=
  match a with
  | Activity.opened | Activity.clicked | Activity.replied => true
  | _ => false
  end.

Definition sentiment_is (s : option Sentiment.t) (v : Sentiment.t) : bool3 :=
  cmp3 (fun a b =>
          match a, b with
          | Sentiment.positive, Sentiment.positive
          | Sentiment.neutral, Sentiment.neutral
          | Sentiment.negative, Sentiment.negative
          | Sentiment.interested, Sentiment.interested
          | Sentiment.not_interested, Sentiment.not_interested => true
          | _, _ => false
          end) s (Some v).

Definition activity_is (a b : Activity.t) : bool :=
  match a, b with
  | Activity.sent, Activity.sent
  | Activity.delivered, Activity.delivered
  | Activity.opened, Activity.opened
  | Activity.clicked, Activity.clicked
  | Activity.replied, Activity.replied
  | Activity.bounced, Activity.bounced
  | Activity.unsubscribed, Activity.unsubscribed
  | Activity.complained, Activity.complained => true
  | _, _ => false
  end.

(** The [CASE] assigned to [lead_temperature]. *)
Definition new_temperature (NEW : instantly_email_activity)
    (lead_temperature : option Temperature.t) : option Temperature.t :=
  if is_true (and3 (Some (activity_is (activity_type NEW) Activity.replied))
                   (sentiment_is (reply_sentiment NEW) Sentiment.positive))
  then Some Temperature.hot
  else if is_true (and3 (Some (activity_is (activity_type NEW)
                                            Activity.replied))
                        (sentiment_is (reply_sentiment NEW)
                                      Sentiment.negative))
  then Some Temperature.cold
  else if activity_is (activity_type NEW) Activity.clicked
  then Some Temperature.warm
  else lead_temperature.

(** The [CASE] assigned to [lead_status]. *)
Definition new_lead_status (NEW : instantly_email_activity)
    (lead_status : option LeadStatus.t) : option LeadStatus.t :=
  if is_true (or3 (sentiment_is (reply_sentiment NEW) Sentiment.negative)
                  (cmp3 String.eqb (reply_intent NEW)
                        (Some "unsubscribe_request")))
  then Some LeadStatus.unsubscribed
  else if is_true (or3 (sentiment_is (reply_sentiment NEW) Sentiment.positive)
                       (cmp3 String.eqb (reply_intent NEW)
                             (Some "interested")))
  then Some LeadStatus.replied
  else lead_status.

Definition set_instantly_integrations (db : database)
    (rows : list instantly_integration) : database :=
  mk_database (companies db) (website_analyses db)
    (customer_journey_analyses db) (automation_opportunities db)
    (prospect_tracking db) rows (instantly_email_activities db).

(** The first [UPDATE]'s assignments to one row. *)
Definition set_engagement (r : instantly_integration) (score : option Z)
    (temperature : option Temperature.t) (at_ : option timestamptz)
  : instantly_integration :=
  mk_instantly_integration (ii_id r) (lead_status r) (emails_sent r)
    (emails_opened r) (emails_clicked r) (emails_replied r) (emails_bounced r)
    (first_email_sent_at r) at_ temperature score.

(** The second [UPDATE]'s assignment to one row. *)
Definition set_lead_status (r : instantly_integration)
    (s : option LeadStatus.t) : instantly_integration :=
  mk_instantly_integration (ii_id r) s (emails_sent r) (emails_opened r)
    (emails_clicked r) (emails_replied r) (emails_bounced r)
    (first_email_sent_at r) (last_activity_at r) (lead_temperature r)
    (engagement_score r).

(** The trigger runs AFTER INSERT on [instantly_email_activities], for each
    row: [db] already holds [NEW]; [now] is the transaction's [NOW()]. *)
Definition update_engagement_on_activity (db : database) (now : timestamptz)
    (NEW : instantly_email_activity) : exec database :=
  if is_engagement_activity (activity_type NEW) then
    rows <- update_where
              (fun r => N.eqb (ii_id r) (integration_id NEW))
              (fun r =>
                 s <- calculate_engagement_score db now
                        (Some (integration_id NEW)) ;;
                 _ <- check_between_0_100 s ;;
                 Ok (set_engagement r s
                       (new_temperature NEW (lead_temperature r))
                       (Some (activity_timestamp NEW))))
              (instantly_integrations db) ;;
    let db1 := set_instantly_integrations db rows in
    (* Update lead status based on activity *)
    if activity_is (activity_type NEW) Activity.replied then
      Ok (set_instantly_integrations db1
            (map (fun r =>
                    if N.eqb (ii_id r) (integration_id NEW)
                    then set_lead_status r (new_lead_status NEW (lead_status r))
                    else r)
                 (instantly_integrations db1)))
    else Ok db1
  else Ok db.

(** Inserting an activity row: the row is appended, then the trigger runs. *)
Definition insert_email_activity (db : database) (now : timestamptz)
    (NEW : instantly_email_activity) : exec database :=
  update_engagement_on_activity
    (mk_database (companies db) (website_analyses db)
       (customer_journey_analyses db) (automation_opportunities db)
       (prospect_tracking db) (instantly_integrations db)
       (instantly_email_activities db ++ [NEW]))
    now NEW.

(* ------------------------------------------------------------------ *)
(** ** The decision table and the stage order, as the specification words
    them *)

Inductive tier : Type := EnterpriseTier | ProfessionalTier | WarmTier | ColdTier.

(** A comparison of the table holds only for a value that is present. *)
Definition at_least (x : option Z) (k : Z) : bool :=
  match x with
  | Some v => k <=? v
  | None => false
  end.

Definition above (x : option Q) (k : Z) : bool :=
  match x with
  | Some q => Qltb (inject_Z k) q
  | None => false
  end.

(** The table of the specification, read top-down, first match wins. *)
Definition decision_table (lead_score : option Z) (roi_potential : option Q)
    (opportunity_count : option Z) : tier :=
  if at_least lead_score 80 || above roi_potential 50000 then EnterpriseTier
  else if at_least lead_score 60
          || (above roi_potential 25000 && at_least opportunity_count 2)
  then ProfessionalTier
  else if at_least lead_score 40 || at_least opportunity_count 1 then WarmTier
  else ColdTier.

Definition tier_campaign (t : tier) : string :=
  match t with
  | EnterpriseTier => "entelech_enterprise_vip"
  | ProfessionalTier => "entelech_professional_priority"
  | WarmTier => "entelech_warm_prospects"
  | ColdTier => "entelech_cold_outreach"
  end.

Definition tier_sequence (t : tier) : string :=
  match t with
  | EnterpriseTier => "seq_enterprise_executive"
  | ProfessionalTier => "seq_professional_priority"
  | WarmTier => "seq_warm_nurture"
  | ColdTier => "seq_cold_education"
  end.

Definition tier_delay (t : tier) : Q :=
  match t with
  | EnterpriseTier => 1 # 2
  | ProfessionalTier => inject_Z 1
  | WarmTier => inject_Z 4
  | ColdTier => inject_Z 24
  end.

Definition tier_priority (t : tier) : string :=
  match t with
  | EnterpriseTier => "high"
  | ProfessionalTier | WarmTier => "medium"
  | ColdTier => "low"
  end.

(** The variables set by a tier. *)
Definition tier_vars (t : tier) : assignment_vars :=
  mk_assignment_vars (tier_campaign t) (tier_sequence t) (tier_delay t)
    (tier_priority t).

(** The industry is one of the regulated ones. *)
Definition regulated (p_industry : option string) : bool :=
  is_true (ilike_any p_industry regulated_patterns).

(** The company size is enterprise or large. *)
Definition enterprise_or_large (p_company_size : option string) : bool :=
  is_true (size_in_enterprise_large p_company_size).

(** Position of a stage in the pipeline
    identified, analyzing, analyzed, contacted, qualified, then
    disqualified or converted. *)
Definition stage_rank (s : Stage.t) : Z :=
  match s with
  | Stage.identified => 0
  | Stage.analyzing => 1
  | Stage.analyzed => 2
  | Stage.contacted => 3
  | Stage.qualified => 4
  | Stage.disqualified => 5
  | Stage.converted => 5
  end.

(** The trigger's [UPDATE companies] reaches company [c]. *)
Definition advances (NEW : website_analysis) (OLD : option website_analysis)
    (c : company) : bool :=
  is_true (analysis_advances NEW OLD) && N.eqb (c_id c) (wa_company_id NEW).

(** The table constraint [CHECK (priority_score BETWEEN 1 AND 100)]. *)
Definition priority_score_check (ao : automation_opportunity) : Prop :=
  match priority_score ao with
  | Some p => 1 <= p <= 100
  | None => True
  end.

Definition opportunities_checked (db : database) : Prop :=
  Forall priority_score_check (automation_opportunities db).

(** Counters for which no [INTEGER] operation of the engagement score
    leaves the 32-bit range. *)
Definition counter_in_range (x : option Z) : Prop :=
  match x with
  | Some v => 0 <= v <= 1000000
  | None => True
  end.

Definition counters_in_range (r : instantly_integration) : Prop :=
  counter_in_range (emails_sent r) /\ counter_in_range (emails_opened r)
  /\ counter_in_range (emails_clicked r) /\ counter_in_range (emails_replied r)
  /\ counter_in_range (emails_bounced r).

Definition metrics_in_range (m : email_metrics) : Prop :=
  counter_in_range (m_emails_sent m) /\ counter_in_range (m_emails_opened m)
  /\ counter_in_range (m_emails_clicked m)
  /\ counter_in_range (m_emails_replied m)
  /\ counter_in_range (m_emails_bounced m).

(** The computation does not fail, and its value is NULL or lies between
    [lo] and [hi]. *)
Definition within (lo hi : Z) (r : exec (option Z)) : Prop :=
  r = Ok None \/ exists v, r = Ok (Some v) /\ lo <= v <= hi.

(** The computation does not fail and its value lies between [lo] and
    [hi]. *)
Definition exactly_within (lo hi : Z) (r : exec (option Z)) : Prop :=
  exists v, r = Ok (Some v) /\ lo <= v <= hi.

(** The event on which a stage is to advance: the analysis row written is
    completed, or its version is above the version of the row it replaces
    (above 0 when it is a new row). *)
Definition completed_or_newer (NEW : website_analysis)
    (OLD : option website_analysis) : Prop :=
  scraping_status NEW = Scraping.completed
  \/ match OLD with
     | Some old => analysis_version old < analysis_version NEW
     | None => 0 < analysis_version NEW
     end.

(** What one firing of the analysis trigger does to a company row.  The row
    keeps its identity.  On a completed or newer analysis of the row's
    company the row moves from identified to analyzing or from analyzing to
    analyzed.  A row at analyzed or beyond, a row of another company, and
    every row when the analysis is neither completed nor newer, keeps its
    stage.  No stage goes backward or moves by more than one step. *)
Definition forward_step (NEW : website_analysis)
    (OLD : option website_analysis) (c c' : company) : Prop :=
  c_id c' = c_id c
  /\ company_size_category c' = company_size_category c
  /\ (completed_or_newer NEW OLD -> c_id c = wa_company_id NEW ->
      status c = Stage.identified -> status c' = Stage.analyzing)
  /\ (completed_or_newer NEW OLD -> c_id c = wa_company_id NEW ->
      status c = Stage.analyzing -> status c' = Stage.analyzed)
  /\ (status c <> Stage.identified -> status c <> Stage.analyzing ->
      status c' = status c)
  /\ (c_id c <> wa_company_id NEW -> status c' = status c)
  /\ (~ completed_or_newer NEW OLD -> status c' = status c)
  /\ stage_rank (status c) <= stage_rank (status c')
     <= stage_rank (status c) + 1.

(* ------------------------------------------------------------------ *)
(** ** Sample rows used by the scenarios *)

Module Scenario.

Definition day : Z := microseconds_per_day.

(** An integration with sent=100, opened=50, clicked=10, replied=1,
    bounced=2 whose last activity is at [now], currently hot. *)
Definition now : timestamptz := 100 * day.

Definition integration : instantly_integration :=
  mk_instantly_integration 1%N (Some LeadStatus.active) (Some 100) (Some 50)
    (Some 10) (Some 1) (Some 2) None (Some now) (Some Temperature.hot)
    (Some 0).

(** One activity on each of the last ten days. *)
Definition activities : list instantly_email_activity :=
  map (fun k => mk_instantly_email_activity 1%N Activity.opened
                  (now - Z.of_nat k * day) None None)
      (seq 0 10).

Definition engaged_db : database :=
  mk_database [] [] [] [] [] [integration] activities.


Definition bounce : instantly_email_activity :=
  mk_instantly_email_activity 1%N Activity.bounced now None None.

Definition opened : instantly_email_activity :=
  mk_instantly_email_activity 1%N Activity.opened now None None.


(** A company with a completed website analysis, a journey analysis and
    one opportunity. *)
Definition analysis : website_analysis :=
  mk_website_analysis 1%N 1 Scraping.completed.

Definition analysed_db : database :=
  mk_database [mk_company 1%N (Some Size.medium) Stage.identified]
    [analysis] [mk_customer_journey_analysis 1%N]
    [mk_automation_opportunity 1%N (Some Tier.professional_7_5k) (Some 85)]
    [mk_prospect_tracking_row 1%N (Some 78)] [] [].

(** An integration whose bounces outweigh everything else. *)
Definition bounced_db : database :=
  mk_database [] [] [] [] []
    [mk_instantly_integration 2%N (Some LeadStatus.active) (Some 10) (Some 0)
       (Some 0) (Some 0) (Some 10) None None (Some Temperature.cold) (Some 0)]
    [].

End Scenario.

(* ------------------------------------------------------------------ *)
(** ** The views

    The computed columns of [v_instantly_campaign_performance],
    [v_instantly_lead_engagement] and [v_service_package_performance].
    A view expression yields a value or fails on a zero divisor.  Columns
    that are copied from a table unchanged are kept only where a property
    below reads them; the columns of [v_instantly_lead_engagement] that come
    from [companies] are left out (the join is a LEFT JOIN on the primary
    key, which keeps one row for each integration). *)

Inductive computed (A : Type) : Type :=
| Value (a : A)
| DivisionByZero.
Arguments Value {A} a.
Arguments DivisionByZero {A}.

Definition and_then {A B : Type} (c : computed A) (k : A -> computed B)
  : computed B :=
  match c with
  | Value a => k a
  | DivisionByZero => DivisionByZero
  end.

(** [a / b] on numerics: NULL when an operand is NULL, an error when [b]
    is zero. *)
Definition numeric_div (a b : option Q) : computed (option Q) :=
  match a, b with
  | Some x, Some y =>
      if Qeq_bool y (inject_Z 0) then DivisionByZero
      else Value (Some (Qdiv x y))
  | _, _ => Value None
  end.

(** [NULLIF(a, k)]. *)
Definition nullif (a : option Z) (k : Z) : option Z :=
  match a with
  | Some x => if x =? k then None else Some x
  | None => None
  end.

Definition num_add : option Q -> option Q -> option Q := num_op Qplus.
Definition num_sub : option Q -> option Q -> option Q := num_op Qminus.
Definition greatest_num : option Q -> option Q -> option Q := pick qmax.

Definition not3 (a : bool3) : bool3 := option_map negb a.

(** [ROUND(q, 2)]. *)
Definition round_2 (a : option Q) : option Q :=
  option_map
    (fun q => Qdiv (inject_Z (round_half_away (Qmult q (inject_Z 100))))
                   (inject_Z 100))
    a.

(** [SELECT f(row) FROM rows]: the expressions are evaluated row by row. *)
Fixpoint select_rows {R V : Type} (f : R -> computed V) (rows : list R)
  : computed (list V) :=
  match rows with
  | [] => Value []
  | r :: rest =>
      and_then (f r) (fun v =>
      and_then (select_rows f rest) (fun vs => Value (v :: vs)))
  end.

(** *** v_instantly_campaign_performance *)

(** The columns of [instantly_campaigns] read by the two computed columns. *)
Record instantly_campaign : Type := mk_instantly_campaign {
  total_emails_sent : option Z;
  total_unsubscribes : option Z;
  overall_open_rate : option Q;
  overall_click_rate : option Q;
  overall_reply_rate : option Q;
  overall_bounce_rate : option Q
}.

(** [total_unsubscribes::DECIMAL / NULLIF(total_emails_sent, 0) * 100]. *)
Definition unsubscribe_percentage (ic : instantly_campaign)
  : computed (option Q) :=
  and_then
    (numeric_div (to_numeric (total_unsubscribes ic))
                 (to_numeric (nullif (total_emails_sent ic) 0)))
    (fun q => Value (num_mul q (Some (inject_Z 100)))).

(** The [CASE] subtracted last in the performance score. *)
Definition unsubscribe_penalty (ic : instantly_campaign)
  : computed (option Q) :=
  if is_true (int_gt (total_unsubscribes ic) (Some 0)) then
    and_then (unsubscribe_percentage ic)
             (fun p => Value (num_mul p (Some (inject_Z 5))))
  else Value (Some (inject_Z 0)).

(** Performance scoring (0-100). *)
Definition performance_score (ic : instantly_campaign)
  : computed (option Q) :=
  and_then (unsubscribe_penalty ic) (fun penalty =>
  Value
    (least_num (Some (inject_Z 100))
       (greatest_num (Some (inject_Z 0))
          (num_sub
             (num_sub
                (num_add
                   (num_add
                      (num_mul (overall_open_rate ic) (Some (inject_Z 2)))
                      (num_mul (overall_click_rate ic) (Some (inject_Z 5))))
                   (num_mul (overall_reply_rate ic) (Some (inject_Z 10))))
                (num_mul (overall_bounce_rate ic) (Some (inject_Z 2))))
             penalty)))).

(** Health status. *)
Definition delivery_health (ic : instantly_campaign) : computed string :=
  and_then (unsubscribe_percentage ic) (fun p =>
  Value
    (if is_true (or3 (num_gt (overall_bounce_rate ic) (Some (inject_Z 10)))
                     (num_gt p (Some (inject_Z 3))))
     then "critical"
     else if is_true (or3 (num_gt (overall_bounce_rate ic)
                                  (Some (inject_Z 5)))
                          (num_gt p (Some (15 # 10))))
     then "warning"
     else "good")).

(** *** v_instantly_lead_engagement *)

Record lead_engagement : Type := mk_lead_engagement {
  le_id : uuid;
  le_lead_status : option LeadStatus.t;
  le_lead_temperature : option Temperature.t;
  le_engagement_score : option Z;
  personal_open_rate : option Q;
  personal_click_rate : option Q;
  personal_reply_rate : option Q;
  active_last_week : bool3;
  active_last_month : bool3
}.

(** [CASE WHEN den > 0 THEN (num::DECIMAL / den * 100) ELSE 0 END]. *)
Definition personal_rate (num den : option Z) : computed (option Q) :=
  if is_true (int_gt den (Some 0)) then
    and_then (numeric_div (to_numeric num) (to_numeric den))
             (fun q => Value (num_mul q (Some (inject_Z 100))))
  else Value (Some (inject_Z 0)).

(** [t > NOW() - INTERVAL 'n days']. *)
Definition active_within (now : timestamptz) (n : Z) (t : option timestamptz)
  : bool3 :=
  cmp3 Z.gtb t (Some (now - n * microseconds_per_day)).

Definition lead_status_eqb (a b : LeadStatus.t) : bool :=
  match a, b with
  | LeadStatus.active, LeadStatus.active
  | LeadStatus.paused, LeadStatus.paused
  | LeadStatus.completed, LeadStatus.completed
  | LeadStatus.unsubscribed, LeadStatus.unsubscribed
  | LeadStatus.bounced, LeadStatus.bounced
  | LeadStatus.complained, LeadStatus.complained
  | LeadStatus.replied, LeadStatus.replied => true
  | _, _ => false
  end.

(** [ii.lead_status != 'unsubscribed']. *)
Definition not_unsubscribed (ii : instantly_integration) : bool :=
  is_true (not3 (cmp3 lead_status_eqb (lead_status ii)
                      (Some LeadStatus.unsubscribed))).

Definition lead_engagement_of (now : timestamptz) (ii : instantly_integration)
  : computed lead_engagement :=
  and_then (personal_rate (emails_opened ii) (emails_sent ii)) (fun o =>
  and_then (personal_rate (emails_clicked ii) (emails_opened ii)) (fun c =>
  and_then (personal_rate (emails_replied ii) (emails_sent ii)) (fun r =>
  Value (mk_lead_engagement (ii_id ii) (lead_status ii) (lead_temperature ii)
           (engagement_score ii) o c r
           (active_within now 7 (last_activity_at ii))
           (active_within now 30 (last_activity_at ii)))))).

Definition v_instantly_lead_engagement (db : database) (now : timestamptz)
  : computed (list lead_engagement) :=
  select_rows (lead_engagement_of now)
    (filter not_unsubscribed (instantly_integrations db)).

(** *** v_service_package_performance *)

Module OppStatus.
Inductive t : Type :=
| identified | validated | recommended | proposed | accepted | rejected.
End OppStatus.

(** The columns of [service_packages] read by the view. *)
Record service_package : Type := mk_service_package {
  package_tier : Tier.t;
  price_usd : Q;
  is_active : bool
}.

(** The columns of [automation_opportunities] read by the view. *)
Record package_opportunity : Type := mk_package_opportunity {
  po_service_tier : option Tier.t;
  po_status : option OppStatus.t;
  package_fit_score : option Z
}.

Record package_performance : Type := mk_package_performance {
  pp_package_tier : Tier.t;
  pp_price_usd : Q;
  total_recommendations : Z;
  accepted_count : Z;
  rejected_count : Z;
  acceptance_rate : option Q;
  avg_fit_score : option Q;
  total_revenue : Q
}.

Definition tier_eqb (a b : Tier.t) : bool :=
  match a, b with
  | Tier.basic_2_5k, Tier.basic_2_5k
  | Tier.professional_7_5k, Tier.professional_7_5k
  | Tier.enterprise_15k, Tier.enterprise_15k => true
  | _, _ => false
  end.

(** [ao.status = 'accepted'] and [ao.status = 'rejected']. *)
Definition is_accepted (ao : package_opportunity) : bool :=
  match po_status ao with
  | Some OppStatus.accepted => true
  | _ => false
  end.

Definition is_rejected (ao : package_opportunity) : bool :=
  match po_status ao with
  | Some OppStatus.rejected => true
  | _ => false
  end.

(** The opportunities joined to a package: [ao.service_tier =
    sp.package_tier]. *)
Definition joined_opportunities (sp : service_package)
    (aos : list package_opportunity) : list package_opportunity :=
  filter (fun ao => is_true (cmp3 tier_eqb (po_service_tier ao)
                                  (Some (package_tier sp))))
         aos.

(** One group of the view.  With no joined opportunity the LEFT JOIN gives
    a single row of NULLs, which every [COUNT] skips and for which the
    [CASE] of the revenue takes its [ELSE 0]. *)
Definition package_performance_of (aos : list package_opportunity)
    (sp : service_package) : computed package_performance :=
  let j := joined_opportunities sp aos in
  let accepted := count (filter is_accepted j) in
  and_then
    (numeric_div (to_numeric (Some accepted))
                 (to_numeric (nullif (Some (count j)) 0)))
    (fun q =>
       Value
         (mk_package_performance (package_tier sp) (price_usd sp) (count j)
            accepted
            (count (filter is_rejected j))
            (round_2 (num_mul q (Some (inject_Z 100))))
            (avg (map package_fit_score j))
            (fold_right Qplus (inject_Z 0)
               (map (fun ao => if is_accepted ao then price_usd sp
                               else inject_Z 0)
                    j)))).

Definition v_service_package_performance (sps : list service_package)
    (aos : list package_opportunity) : computed (list package_performance) :=
  select_rows (package_performance_of aos) (filter is_active sps).

(** A character that [LIKE] takes literally. *)
Definition plain_char (c : ascii) : Prop :=
  Ascii.eqb c "%" = false /\ Ascii.eqb c "_" = false.

(** A computation that can fail only by leaving the [INTEGER] range. *)
Definition range_only {A : Type} (c : exec A) : Prop :=
  forall e, c = Raise e -> e = integer_out_of_range.

(** What a firing of the analysis trigger does to a tracking row: a row of
    the analysed company gets the value of [calculate_lead_score] for that
    company, every other row is untouched. *)
Definition tracking_effect (db : database) (NEW : website_analysis)
    (r r' : prospect_tracking_row) : Prop :=
  pt_company_id r' = pt_company_id r
  /\ if N.eqb (pt_company_id r) (wa_company_id NEW)
     then calculate_lead_score db (Some (wa_company_id NEW))
          = Ok (lead_score r')
          /\ exists s, lead_score r' = Some s /\ 0 <= s <= 100
     else r' = r.

(** Two firings for the same company. *)
Definition two_steps (NEW : website_analysis) (c c2 : company) : Prop :=
  c_id c2 = c_id c
  /\ (c_id c = wa_company_id NEW ->
      match status c with
      | Stage.identified | Stage.analyzing | Stage.analyzed =>
          status c2 = Stage.analyzed
      | s => status c2 = s
      end)
  /\ (c_id c <> wa_company_id NEW -> c2 = c).

(** More sample rows. *)
Module Sample.

(** An integration with a hundred million replies. *)
Definition many_replies : instantly_integration :=
  mk_instantly_integration 4%N (Some LeadStatus.replied) (Some 100) (Some 50)
    (Some 10) (Some 100000000) (Some 0) None None (Some Temperature.hot)
    (Some 0).

Definition many_replies_db : database :=
  mk_database [] [] [] [] [] [many_replies] [].


Definition campaign : instantly_campaign :=
  mk_instantly_campaign (Some 200) (Some 8) (Some (45 # 1)) (Some (12 # 1))
    (Some (3 # 1)) (Some (2 # 1)).

Definition packages : list service_package :=
  [mk_service_package Tier.basic_2_5k (2500 # 1) true;
   mk_service_package Tier.professional_7_5k (7500 # 1) true;
   mk_service_package Tier.enterprise_15k (15000 # 1) false].

Definition opportunities : list package_opportunity :=
  [mk_package_opportunity (Some Tier.professional_7_5k)
     (Some OppStatus.accepted) (Some 80);
   mk_package_opportunity (Some Tier.professional_7_5k)
     (Some OppStatus.rejected) (Some 40);
   mk_package_opportunity (Some Tier.professional_7_5k)
     (Some OppStatus.accepted) None;
   mk_package_opportunity None (Some OppStatus.accepted) (Some 90)].

End Sample.

(* ------------------------------------------------------------------ *)
(** ** Three-valued logic *)

Lemma is_true_or3 (a b : bool3) : is_true (or3 a b) = is_true a || is_true b.
Proof. destruct a as [[|]|], b as [[|]|]; reflexivity. Qed.

Lemma is_true_and3 (a b : bool3) :
  is_true (and3 a b) = is_true a && is_true b.
Proof. destruct a as [[|]|], b as [[|]|]; reflexivity. Qed.

Lemma is_true_int_ge (x : option Z) (k : Z) :
  is_true (int_ge x (Some k)) = at_least x k.
Proof.
  destruct x as [v|]; simpl; [|reflexivity].
  rewrite Z.geb_leb. destruct (k <=? v); reflexivity.
Qed.

Lemma is_true_num_gt (x : option Q) (k : Z) :
  is_true (num_gt x (Some (inject_Z k))) = above x k.
Proof.
  destruct x as [q|]; simpl; [|reflexivity].
  destruct (Qltb (inject_Z k) q); reflexivity.
Qed.

(* ------------------------------------------------------------------ *)
(** ** The reply classifier *)

Lemma alternatives_keyword (k : string) :
  In k (v_keywords_positive ++ v_keywords_negative) -> alternatives k = [k].
Proof.
  intros H. simpl in H.
  repeat (destruct H as [<-|H]; [vm_compute; reflexivity|]).
  contradiction.
Qed.

Lemma regex_match_keyword (s k : string) :
  In k (v_keywords_positive ++ v_keywords_negative) ->
  regex_match s k = contains k s.
Proof.
  intros H. unfold regex_match. rewrite (alternatives_keyword k H).
  simpl. apply orb_false_r.
Qed.

Lemma positive_keyword_found (s k : string) :
  In k v_keywords_positive -> contains k s = true ->
  regex_match_any s v_keywords_positive = true.
Proof.
  intros Hin Hc. unfold regex_match_any. apply existsb_exists.
  exists k. split; [exact Hin|].
  rewrite regex_match_keyword; [exact Hc|].
  apply in_or_app. left. exact Hin.
Qed.

Lemma positive_match_sentiment (c : option string) :
  regex_match_any (lower (coalesce c "")) v_keywords_positive = true ->
  sentiment (analyze_reply_basic c) = "positive".
Proof.
  intros H. unfold analyze_reply_basic, sentiment. rewrite H. reflexivity.
Qed.

(** C5.  [analyze_reply_basic] has no failing path: its embedding is a
    function into the result record, with no [exec] around it.  For NULL
    and for empty content the result is neutral / general_inquiry / medium /
    no human review, and for every content the three text fields take one of
    the documented values. *)
Theorem analyze_reply_basic_total_with_defaults :
  analyze_reply_basic None
  = mk_reply_analysis "neutral" "general_inquiry" "medium" false
  /\ analyze_reply_basic (Some "")
     = mk_reply_analysis "neutral" "general_inquiry" "medium" false
  /\ forall c : option string,
       In (sentiment (analyze_reply_basic c))
          ["positive"; "negative"; "neutral"]
       /\ In (intent (analyze_reply_basic c))
             ["meeting_request"; "pricing_inquiry"; "unsubscribe_request";
              "interested"; "not_interested"; "general_inquiry"]
       /\ In (confidence (analyze_reply_basic c)) ["high"; "medium"].
Proof.
  split; [vm_compute; reflexivity|].
  split; [vm_compute; reflexivity|].
  intros c. unfold analyze_reply_basic, sentiment, intent, confidence.
  set (s := lower (coalesce c "")).
  destruct (regex_match_any s v_keywords_positive);
    destruct (regex_match_any s v_keywords_negative);
    destruct (regex_match_any s v_keywords_meeting);
    destruct (regex_match_any s v_keywords_pricing);
    destruct (regex_match s "remove|unsubscribe");
    destruct (regex_match_any s (v_keywords_positive ++ v_keywords_negative));
    cbn; tauto.
Qed.

(** C9.  The positive lexicon is tried first and a keyword matches when it
    occurs in the lowered content: content holding a positive and a negative
    keyword is positive; "not interested" is positive / interested / high /
    human review; and an intent of not_interested is returned only for
    content holding no positive keyword. *)
Theorem positive_lexicon_wins :
  (forall (c : option string) (kp kn : string),
      In kp v_keywords_positive -> In kn v_keywords_negative ->
      contains kp (lower (coalesce c "")) = true ->
      contains kn (lower (coalesce c "")) = true ->
      sentiment (analyze_reply_basic c) = "positive")
  /\ analyze_reply_basic (Some "not interested")
     = mk_reply_analysis "positive" "interested" "high" true
  /\ (forall (c : option string) (kp : string),
        intent (analyze_reply_basic c) = "not_interested" ->
        In kp v_keywords_positive ->
        contains kp (lower (coalesce c "")) = false).
Proof.
  split; [|split].
  - intros c kp kn Hp _ Hcp _.
    apply positive_match_sentiment.
    exact (positive_keyword_found _ kp Hp Hcp).
  - vm_compute. reflexivity.
  - intros c kp Hi Hp.
    destruct (contains kp (lower (coalesce c ""))) eqn:Hc; [|reflexivity].
    exfalso. revert Hi.
    unfold analyze_reply_basic, intent.
    set (s := lower (coalesce c "")) in *.
    rewrite (positive_keyword_found s kp Hp Hc).
    destruct (regex_match_any s v_keywords_meeting);
      destruct (regex_match_any s v_keywords_pricing);
      destruct (regex_match s "remove|unsubscribe"); cbn; discriminate.
Qed.

Lemma positive_lexicon_wins_witness :
  sentiment (analyze_reply_basic (Some "Not interested, please STOP"))
  = "positive"
  /\ contains "interested" (lower "I am busy") = false.
Proof.
  destruct positive_lexicon_wins as [Hboth [_ Honly]].
  split.
  - apply (Hboth (Some "Not interested, please STOP") "interested" "stop");
      vm_compute; auto 20.
  - apply (Honly (Some "I am busy") "interested");
      vm_compute; auto 20.
Defined.

(* ------------------------------------------------------------------ *)
(** ** The assignment resolver *)

Lemma select_tier_decision_table (ls : option Z) (roi : option Q)
    (opps : option Z) :
  select_tier ls roi opps = tier_vars (decision_table ls roi opps).
Proof.
  unfold select_tier, decision_table.
  rewrite !is_true_or3, !is_true_and3, !is_true_int_ge, !is_true_num_gt.
  destruct (at_least ls 80 || above roi 50000); [reflexivity|].
  destruct (at_least ls 60 || above roi 25000 && at_least opps 2);
    [reflexivity|].
  destruct (at_least ls 40 || at_least opps 1); reflexivity.
Qed.

(** C3, as amended.  The tier is chosen by the decision table read
    top-down; campaign and priority are the tier's for every industry and
    company size; the delay returned is the tier's delay raised by the two
    overrides, and is the tier's delay itself when no override applies. *)
Theorem assignment_follows_decision_table :
  forall (ls : option Z) (roi : option Q) (ind size : option string)
         (opps : option Z),
    let r := get_optimal_campaign_assignment ls roi ind size opps in
    let t := decision_table ls roi opps in
    campaign_id r = tier_campaign t
    /\ priority r = tier_priority t
    /\ delay_hours r
       = (let d := if regulated ind then qmax (tier_delay t) (inject_Z 2)
                   else tier_delay t in
          if enterprise_or_large size then qmax d (inject_Z 4) else d)
    /\ (regulated ind = false -> enterprise_or_large size = false ->
        sequence_id r = tier_sequence t /\ delay_hours r = tier_delay t).
Proof.
  intros ls roi ind size opps r t. subst r t.
  unfold get_optimal_campaign_assignment.
  rewrite select_tier_decision_table.
  unfold industry_adjust, size_adjust, regulated, enterprise_or_large.
  destruct (is_true (ilike_any ind regulated_patterns));
    destruct (is_true (size_in_enterprise_large size)); cbn;
    repeat split; intros; try discriminate; reflexivity.
Qed.

Lemma assignment_follows_decision_table_witness :
  let r := get_optimal_campaign_assignment (Some 85) (Some (inject_Z 60000))
             None None None in
  campaign_id r = "entelech_enterprise_vip" /\ priority r = "high"
  /\ sequence_id r = "seq_enterprise_executive" /\ delay_hours r = 1 # 2.
Proof.
  destruct (assignment_follows_decision_table (Some 85)
              (Some (inject_Z 60000)) None None None)
    as [Hc [Hp [_ Hd]]].
  destruct (Hd eq_refl eq_refl) as [Hs Hd'].
  repeat split; assumption.
Defined.

(** C3, the claim as written fails: a lead score of 85 with a company size
    of enterprise is given the enterprise campaign with a delay of 4 hours. *)
Lemma enterprise_delay_raised_for_enterprise_size :
  let r := get_optimal_campaign_assignment (Some 85) (Some (inject_Z 60000))
             None (Some "enterprise") (Some 0) in
  at_least (Some 85) 80 = true
  /\ campaign_id r = "entelech_enterprise_vip"
  /\ delay_hours r = inject_Z 4
  /\ ~ (delay_hours r == 1 # 2)%Q.
Proof.
  vm_compute. repeat split; try reflexivity. discriminate.
Qed.

(** C7, as amended.  A lead score of 45 in the warm tier with industry
    "Healthcare Services": the industry is a regulated one, the sequence
    identifier gets the compliance suffix, and the delay is 4 hours, the warm
    tier's own delay, which the override [GREATEST(delay, 2)] leaves as it
    is. *)
Theorem healthcare_warm_assignment :
  forall (roi : option Q) (size : option string) (opps : option Z),
    decision_table (Some 45) roi opps = WarmTier ->
    let r := get_optimal_campaign_assignment (Some 45) roi
               (Some "Healthcare Services") size opps in
    regulated (Some "Healthcare Services") = true
    /\ campaign_id r = "entelech_warm_prospects"
    /\ sequence_id r = "seq_warm_nurture_compliance"
    /\ delay_hours r = inject_Z 4
    /\ priority r = "medium".
Proof.
  intros roi size opps Ht r. subst r.
  unfold get_optimal_campaign_assignment.
  rewrite select_tier_decision_table, Ht.
  split; [vm_compute; reflexivity|].
  unfold size_adjust.
  destruct (is_true (size_in_enterprise_large size));
    vm_compute; repeat split; reflexivity.
Qed.

Lemma healthcare_warm_assignment_witness :
  let r := get_optimal_campaign_assignment (Some 45) None
             (Some "Healthcare Services") None (Some 0) in
  sequence_id r = "seq_warm_nurture_compliance"
  /\ delay_hours r = inject_Z 4.
Proof.
  destruct (healthcare_warm_assignment None None (Some 0) eq_refl)
    as [_ [_ [Hs [Hd _]]]].
  split; assumption.
Defined.

(** C7, the claim as written fails: the delay is not 2 hours. *)
Lemma healthcare_warm_delay_is_not_two :
  let r := get_optimal_campaign_assignment (Some 45) None
             (Some "Healthcare Services") None (Some 0) in
  campaign_id r = "entelech_warm_prospects"
  /\ sequence_id r = "seq_warm_nurture_compliance"
  /\ ~ (delay_hours r == inject_Z 2)%Q.
Proof.
  vm_compute. repeat split; try reflexivity. discriminate.
Qed.

(* ------------------------------------------------------------------ *)
(** ** Rounding and bounds on numerics *)

Lemma Qfloor_half (n : Z) : Qfloor (inject_Z n + (1 # 2)) = n.
Proof.
  unfold Qfloor, Qplus, inject_Z. cbn [Qnum Qden].
  change (Z.pos (1 * 2)) with 2.
  symmetry. apply (Z.div_unique _ 2 n 1); lia.
Qed.

Lemma round_half_away_bounds (q : Q) (n : Z) :
  (0 <= q)%Q -> (q <= inject_Z n)%Q -> 0 <= round_half_away q <= n.
Proof.
  intros H0 Hn. unfold round_half_away.
  apply Qle_bool_iff in H0. rewrite H0. apply Qle_bool_iff in H0.
  split.
  - change 0 with (Qfloor (inject_Z 0)). apply Qfloor_resp_le.
    apply Qle_trans with q; [exact H0|].
    rewrite <- (Qplus_0_r q) at 1. apply Qplus_le_r. discriminate.
  - rewrite <- (Qfloor_half n). apply Qfloor_resp_le.
    apply Qplus_le_l. exact Hn.
Qed.

Lemma qmin_le_l (a b : Q) : (qmin a b <= a)%Q.
Proof.
  unfold qmin. destruct (Qle_bool a b) eqn:E; [apply Qle_refl|].
  apply Qlt_le_weak, Qnot_le_lt. intros H. apply Qle_bool_iff in H. congruence.
Qed.

Lemma qmin_nonneg (a b : Q) : (0 <= a)%Q -> (0 <= b)%Q -> (0 <= qmin a b)%Q.
Proof. intros Ha Hb. unfold qmin. destruct (Qle_bool a b); assumption. Qed.

Lemma inject_Z_nonneg (z : Z) : 0 <= z -> (0 <= inject_Z z)%Q.
Proof. intros H. change 0%Q with (inject_Z 0). rewrite <- Zle_Qle. exact H. Qed.

Lemma Qdiv_nonneg (a b : Q) : (0 <= a)%Q -> (0 <= b)%Q -> (0 <= a / b)%Q.
Proof.
  intros Ha Hb. unfold Qdiv. apply Qmult_le_0_compat; [exact Ha|].
  apply Qinv_le_0_compat. exact Hb.
Qed.

(** A quotient of counters, scaled: [a / b * 100 * k] for [0 <= a <= n] and
    [1 <= b]. *)
Lemma scaled_ratio_bounds (a b n : Z) (k : Q) :
  0 <= a <= n -> 1 <= b -> (0 <= k)%Q ->
  (0 <= inject_Z a / inject_Z b * inject_Z 100 * k)%Q
  /\ (inject_Z a / inject_Z b * inject_Z 100 * k
      <= inject_Z n * inject_Z 100 * k)%Q.
Proof.
  intros Ha Hb Hk.
  assert (Ha0 : (0 <= inject_Z a)%Q) by (apply inject_Z_nonneg; lia).
  assert (Hb0 : (0 <= inject_Z b)%Q) by (apply inject_Z_nonneg; lia).
  assert (Hq0 : (0 <= inject_Z a / inject_Z b)%Q)
    by (apply Qdiv_nonneg; assumption).
  assert (Hqn : (inject_Z a / inject_Z b <= inject_Z n)%Q).
  { apply Qle_shift_div_r.
    - change 0%Q with (inject_Z 0). rewrite <- Zlt_Qlt. lia.
    - rewrite <- inject_Z_mult, <- Zle_Qle. nia. }
  split.
  - apply Qmult_le_0_compat; [|exact Hk].
    apply Qmult_le_0_compat; [exact Hq0|]. discriminate.
  - apply Qmult_le_compat_r; [|exact Hk].
    apply Qmult_le_compat_r; [exact Hqn|]. discriminate.
Qed.

Lemma int4_check_ok (z : Z) :
  int4_min <= z <= int4_max -> int4_check z = Ok z.
Proof.
  intros [Hl Hu]. unfold int4_check, in_int4.
  apply Z.leb_le in Hl. apply Z.leb_le in Hu. rewrite Hl, Hu. reflexivity.
Qed.

Lemma int4_op_ok (f : Z -> Z -> Z) (x y : Z) :
  int4_min <= f x y <= int4_max ->
  int4_op f (Some x) (Some y) = Ok (Some (f x y)).
Proof. intros H. unfold int4_op. rewrite int4_check_ok by exact H. reflexivity. Qed.

Lemma numeric_to_int4_ok (q : Q) (n : Z) :
  (0 <= q)%Q -> (q <= inject_Z n)%Q -> n <= int4_max ->
  exists z, numeric_to_int4 (Some q) = Ok (Some z) /\ 0 <= z <= n.
Proof.
  intros H0 Hn Hmax.
  pose proof (round_half_away_bounds q n H0 Hn) as Hr.
  exists (round_half_away q). split; [|exact Hr].
  unfold numeric_to_int4. rewrite int4_check_ok; [reflexivity|].
  unfold int4_min. lia.
Qed.

(* ------------------------------------------------------------------ *)
(** ** The lead score *)

Lemma nodup_ones (l : list Z) :
  (forall x, In x l -> x = 1) ->
  nodup Z.eq_dec l = [] \/ nodup Z.eq_dec l = [1].
Proof.
  induction l as [|x l IH]; intros H; [left; reflexivity|].
  assert (Hx : x = 1) by (apply H; left; reflexivity). subst x.
  assert (Hl : forall y, In y l -> y = 1) by (intros y Hy; apply H; right; exact Hy).
  simpl. destruct (in_dec Z.eq_dec 1 l) as [Hin|Hnin].
  - apply IH. exact Hl.
  - right. destruct l as [|y l']; [reflexivity|].
    exfalso. apply Hnin. left. apply Hl. left. reflexivity.
Qed.

(** The [UNION] of the two [SELECT 1] queries has at most one row, so the
    component is 0 or 15. *)
Lemma analysis_score_values (db : database) (id : option uuid) :
  analysis_score db id = Some 0 \/ analysis_score db id = Some 15.
Proof.
  unfold analysis_score, analysis_count, union_distinct.
  match goal with
  | |- context [nodup Z.eq_dec ?l] =>
      destruct (nodup_ones l) as [E|E]; [|rewrite E; left; reflexivity
                                          |rewrite E; right; reflexivity]
  end.
  intros x Hx. apply in_app_or in Hx.
  destruct Hx as [Hx|Hx]; apply in_map_iff in Hx;
    destruct Hx as [? [Hx _]]; symmetry; exact Hx.
Qed.

Lemma company_size_score_values (db : database) (id : option uuid) :
  company_size_score db id = None
  \/ exists s, company_size_score db id = Some s /\ 5 <= s <= 25.
Proof.
  unfold company_size_score, select_into.
  destruct (filter _ (companies db)) as [|c cs]; [left; reflexivity|].
  right. eexists. split; [reflexivity|].
  destruct (company_size_category c) as [[| | | |]|]; lia.
Qed.

Lemma fit_score_values (db : database) (id : option uuid) :
  exists f, fit_score db id = Some f /\ 0 <= f <= 15.
Proof.
  unfold fit_score, count. eexists. split; [reflexivity|]. lia.
Qed.

Lemma non_null_sum_nonneg (xs : list (option Z)) :
  Forall (fun x => match x with Some p => 0 <= p | None => True end) xs ->
  0 <= fold_right Z.add 0 (non_null xs).
Proof.
  induction 1 as [|x xs Hx _ IH]; simpl; [lia|].
  destruct x as [p|]; simpl; lia.
Qed.

Lemma avg_nonneg (xs : list (option Z)) :
  Forall (fun x => match x with Some p => 0 <= p | None => True end) xs ->
  (0 <= coalesce (avg xs) (inject_Z 0))%Q.
Proof.
  intros H. unfold avg.
  pose proof (non_null_sum_nonneg xs H) as Hs.
  destruct (non_null xs) as [|y ys] eqn:E; [simpl; discriminate|].
  unfold coalesce. apply Qdiv_nonneg; apply inject_Z_nonneg; [exact Hs|lia].
Qed.

Lemma automation_score_values (db : database) (id : option uuid) :
  opportunities_checked db ->
  exists a, automation_score db id = Ok (Some a) /\ 0 <= a <= 35.
Proof.
  intros Hdb. unfold automation_score, least_num, num_mul, num_op, pick.
  apply numeric_to_int4_ok.
  - apply qmin_nonneg; [discriminate|].
    apply Qmult_le_0_compat; [|discriminate].
    apply avg_nonneg.
    apply Forall_map, Forall_forall. intros ao Hao.
    apply filter_In in Hao. destruct Hao as [Hao _].
    unfold opportunities_checked in Hdb. rewrite Forall_forall in Hdb.
    specialize (Hdb ao Hao). unfold priority_score_check in Hdb.
    destruct (priority_score ao); [lia|exact I].
  - apply qmin_le_l.
  - unfold int4_max. lia.
Qed.

Lemma lead_score_sum_of_size (db : database) (id : option uuid)
    (c : option Z) :
  opportunities_checked db ->
  company_size_score db id = c ->
  match c with
  | None => lead_score_sum db id = Ok None
  | Some s => 5 <= s <= 25 ->
              exists v, lead_score_sum db id = Ok (Some v) /\ 5 <= v <= 90
  end.
Proof.
  intros Hdb Ec. unfold lead_score_sum.
  destruct (automation_score_values db id Hdb) as [a [Ea Ha]].
  destruct (fit_score_values db id) as [f [Ef Hf]].
  rewrite Ea, Ef, Ec. cbn [bind].
  destruct c as [s|].
  - intros Hs.
    assert (Hr : forall x y, 0 <= x <= 100 -> 0 <= y <= 100 ->
                             int4_add (Some x) (Some y) = Ok (Some (x + y))).
    { intros x y Hx Hy. apply (int4_op_ok Z.add).
      unfold int4_min, int4_max. lia. }
    destruct (analysis_score_values db id) as [E|E]; rewrite E;
      rewrite Hr by lia; cbn [bind]; rewrite Hr by lia; cbn [bind];
      rewrite Hr by lia; eexists; (split; [reflexivity|lia]).
  - destruct (analysis_score_values db id) as [E|E]; rewrite E; reflexivity.
Qed.

(** Under the table's check on [priority_score], the sum of the four
    components is NULL (no company row) or lies in 5..90. *)
Lemma lead_score_sum_values (db : database) (id : option uuid) :
  opportunities_checked db ->
  lead_score_sum db id = Ok None
  \/ exists v, lead_score_sum db id = Ok (Some v) /\ 5 <= v <= 90.
Proof.
  intros Hdb.
  destruct (company_size_score_values db id) as [Ec|[c [Ec Hc]]].
  - left. exact (lead_score_sum_of_size db id None Hdb Ec).
  - right. exact (lead_score_sum_of_size db id (Some c) Hdb Ec Hc).
Qed.

(** With a company row, the sum is not NULL. *)
Lemma lead_score_sum_existing (db : database) (id : option uuid)
    (c : company) (cs : list company) :
  filter (fun x => key_eq (c_id x) id) (companies db) = c :: cs ->
  opportunities_checked db ->
  exists v, lead_score_sum db id = Ok (Some v) /\ 5 <= v <= 90.
Proof.
  intros Hf Hdb.
  destruct (company_size_score_values db id) as [Ec|[s [Ec Hs]]].
  - unfold company_size_score in Ec. rewrite Hf in Ec. discriminate.
  - exact (lead_score_sum_of_size db id (Some s) Hdb Ec Hs).
Qed.

Lemma calculate_lead_score_values (db : database) (id : option uuid) :
  opportunities_checked db ->
  exists s, calculate_lead_score db id = Ok (Some s) /\ 0 <= s <= 100.
Proof.
  intros Hdb. unfold calculate_lead_score.
  destruct (lead_score_sum_values db id Hdb) as [E|[v [E Hv]]]; rewrite E;
    cbn [bind least_int pick].
  - exists 100. split; [reflexivity|lia].
  - exists (Z.min 100 v). split; [reflexivity|lia].
Qed.

(** C2.  With a completed website analysis and a journey analysis both
    present the component computed by the code is 15, not the 20 of the
    claim: the [UNION] of two [SELECT 1] queries keeps a single row, so the
    count never exceeds 1 and the component is 0 or 15 on every database. *)
Theorem analysis_component_with_two_types :
  analysis_score Scenario.analysed_db (Some 1%N) = Some 15
  /\ analysis_score Scenario.analysed_db (Some 1%N) <> Some 20
  /\ forall (db : database) (id : option uuid),
       analysis_score db id = Some 0 \/ analysis_score db id = Some 15.
Proof.
  split; [vm_compute; reflexivity|].
  split; [vm_compute; discriminate|].
  exact analysis_score_values.
Qed.

(* ------------------------------------------------------------------ *)
(** ** The engagement score *)

Lemma get_email_metrics_in_range (db : database) (now : timestamptz)
    (id : option uuid) :
  Forall counters_in_range (instantly_integrations db) ->
  metrics_in_range (get_email_metrics db now id).
Proof.
  intros H. unfold get_email_metrics.
  destruct (filter _ (instantly_integrations db)) as [|r rs] eqn:E.
  - repeat split.
  - assert (Hr : In r (instantly_integrations db)).
    { assert (Hin : In r (r :: rs)) by (left; reflexivity).
      rewrite <- E in Hin. apply filter_In in Hin. tauto. }
    rewrite Forall_forall in H. exact (H r Hr).
Qed.

Lemma ratio_term_values (a b : option Z) (k : Q) (cap bound : Z) :
  counter_in_range a -> is_true (int_gt b (Some 0)) = true ->
  (0 <= k)%Q -> (inject_Z 1000000 * inject_Z 100 * k <= inject_Z bound)%Q ->
  bound <= int4_max -> 0 <= cap ->
  exactly_within 0 cap
    (r <- numeric_to_int4
            (num_mul (num_mul (num_div (to_numeric a) (to_numeric b))
                              (Some (inject_Z 100)))
                     (Some k)) ;;
     Ok (least_int (Some cap) r)).
Proof.
  intros Ha Hb Hk Hbound Hmax Hcap.
  destruct b as [b|]; [|discriminate].
  simpl in Hb. destruct (b >? 0) eqn:Hb0; [|discriminate].
  apply Z.gtb_lt in Hb0.
  destruct a as [a|]; simpl in Ha.
  - destruct (scaled_ratio_bounds a b 1000000 k Ha ltac:(lia) Hk) as [H0 Hn].
    destruct (numeric_to_int4_ok
                (inject_Z a / inject_Z b * inject_Z 100 * k) bound H0
                (Qle_trans _ _ _ Hn Hbound) Hmax) as [z [Ez Hz]].
    cbn [to_numeric option_map num_div num_mul num_op].
    rewrite Ez. cbn [bind least_int pick].
    exists (Z.min cap z). split; [reflexivity|lia].
  - exists cap. split; [reflexivity|lia].
Qed.

Lemma open_rate_term_values (m : email_metrics) :
  metrics_in_range m -> is_true (int_gt (m_emails_sent m) (Some 0)) = true ->
  exactly_within 0 15 (open_rate_term m).
Proof.
  intros [_ [Ho _]] Hs. unfold open_rate_term.
  apply (ratio_term_values _ _ (6 # 10) 15 60000000); try assumption;
    try discriminate; unfold int4_max; lia.
Qed.

Lemma click_rate_term_values (m : email_metrics) :
  metrics_in_range m -> is_true (int_gt (m_emails_opened m) (Some 0)) = true ->
  exactly_within 0 20 (click_rate_term m).
Proof.
  intros [_ [_ [Hc _]]] Ho. unfold click_rate_term.
  apply (ratio_term_values _ _ (667 # 100) 20 667000000); try assumption;
    try discriminate; unfold int4_max; lia.
Qed.

Lemma reply_term_values (m : email_metrics) :
  metrics_in_range m -> exactly_within 0 25 (reply_term m).
Proof.
  intros [_ [_ [_ [Hr _]]]]. unfold reply_term.
  destruct (m_emails_replied m) as [r|]; simpl in Hr.
  - unfold int4_mul. rewrite int4_op_ok by (unfold int4_min, int4_max; lia).
    cbn [bind least_int pick]. exists (Z.min 25 (r * 25)).
    split; [reflexivity|lia].
  - exists 25. split; [reflexivity|lia].
Qed.

Lemma bounce_penalty_values (m : email_metrics) :
  metrics_in_range m -> within 0 5000000 (bounce_penalty m).
Proof.
  intros [_ [_ [_ [_ Hb]]]]. unfold bounce_penalty.
  destruct (m_emails_bounced m) as [b|]; simpl in Hb.
  - right. unfold int4_mul.
    rewrite int4_op_ok by (unfold int4_min, int4_max; lia).
    exists (b * 5). split; [reflexivity|lia].
  - left. reflexivity.
Qed.

Lemma int4_add_small (x y : Z) :
  -10000000 <= x <= 10000000 -> -10000000 <= y <= 10000000 ->
  int4_add (Some x) (Some y) = Ok (Some (x + y)).
Proof.
  intros Hx Hy. apply (int4_op_ok Z.add). unfold int4_min, int4_max. lia.
Qed.

Lemma int4_sub_small (x y : Z) :
  -10000000 <= x <= 10000000 -> -10000000 <= y <= 10000000 ->
  int4_sub (Some x) (Some y) = Ok (Some (x - y)).
Proof.
  intros Hx Hy. apply (int4_op_ok Z.sub). unfold int4_min, int4_max. lia.
Qed.

Lemma email_interaction_score_values (m : email_metrics) :
  metrics_in_range m ->
  within (-5000000) 60 (email_interaction_score m (Some 0)).
Proof.
  intros Hm. unfold email_interaction_score.
  destruct (is_true (int_gt (m_emails_sent m) (Some 0))) eqn:Hs;
    [|right; exists 0; split; [reflexivity|lia]].
  destruct (open_rate_term_values m Hm Hs) as [t1 [E1 H1]].
  rewrite E1. cbn [bind]. rewrite int4_add_small by lia. cbn [bind].
  assert (Hclick : exists v2,
             (if is_true (int_gt (m_emails_opened m) (Some 0))
              then t <- click_rate_term m ;; int4_add (Some (0 + t1)) t
              else Ok (Some (0 + t1))) = Ok (Some v2) /\ 0 <= v2 <= 35).
  { destruct (is_true (int_gt (m_emails_opened m) (Some 0))) eqn:Ho.
    - destruct (click_rate_term_values m Hm Ho) as [t2 [E2 H2]].
      rewrite E2. cbn [bind]. rewrite int4_add_small by lia.
      eexists. split; [reflexivity|lia].
    - eexists. split; [reflexivity|lia]. }
  destruct Hclick as [v2 [E2 H2]]. rewrite E2. cbn [bind].
  destruct (reply_term_values m Hm) as [t3 [E3 H3]].
  rewrite E3. cbn [bind]. rewrite int4_add_small by lia. cbn [bind].
  destruct (bounce_penalty_values m Hm) as [E4|[t4 [E4 H4]]]; rewrite E4;
    cbn [bind].
  - left. reflexivity.
  - right. rewrite int4_sub_small by lia.
    eexists. split; [reflexivity|lia].
Qed.

Lemma recency_bonus_values (d : Q) (b : Z) :
  recency_bonus d = Some b -> 5 <= b <= 20.
Proof.
  unfold recency_bonus.
  repeat (destruct (Qle_bool d _); [intros [= <-]; lia|]).
  discriminate.
Qed.

Lemma time_based_score_values (m : email_metrics) (r : exec (option Z)) :
  within (-5000000) 60 r ->
  within (-5000000) 80 (v <- r ;; time_based_score m v).
Proof.
  intros [E|[v [E Hv]]]; rewrite E; cbn [bind]; unfold time_based_score.
  - left. destruct (days_since_last_activity m) as [d|]; [|reflexivity].
    destruct (recency_bonus d); reflexivity.
  - right. destruct (days_since_last_activity m) as [d|];
      [|exists v; split; [reflexivity|lia]].
    destruct (recency_bonus d) as [b|] eqn:Eb;
      [|exists v; split; [reflexivity|lia]].
    apply recency_bonus_values in Eb.
    rewrite int4_add_small by lia. eexists. split; [reflexivity|lia].
Qed.

Lemma range_only_ok {A : Type} (a : A) : range_only (Ok a).
Proof. intros e H. discriminate H. Qed.

Lemma range_only_bind {A B : Type} (c : exec A) (k : A -> exec B) :
  range_only c -> (forall a, range_only (k a)) -> range_only (bind c k).
Proof.
  intros Hc Hk e. destruct c as [a|e']; cbn [bind].
  - apply Hk.
  - intros [= <-]. apply Hc. reflexivity.
Qed.

Lemma range_only_int4_check (z : Z) : range_only (int4_check z).
Proof.
  intros e. unfold int4_check. destruct (in_int4 z); [discriminate|].
  intros [= <-]. reflexivity.
Qed.

Lemma range_only_int4_op (f : Z -> Z -> Z) (a b : option Z) :
  range_only (int4_op f a b).
Proof.
  unfold int4_op. destruct a, b; try apply range_only_ok.
  apply range_only_bind; [apply range_only_int4_check|].
  intros ?. apply range_only_ok.
Qed.

Lemma range_only_numeric_to_int4 (a : option Q) :
  range_only (numeric_to_int4 a).
Proof.
  unfold numeric_to_int4. destruct a; [|apply range_only_ok].
  apply range_only_bind; [apply range_only_int4_check|].
  intros ?. apply range_only_ok.
Qed.

Ltac range_only_tac :=
  repeat first
    [ apply range_only_ok
    | apply range_only_int4_op
    | apply range_only_numeric_to_int4
    | apply range_only_bind; [|intros]
    | match goal with
      | |- range_only (if ?b then _ else _) => destruct b
      | |- range_only (match ?x with _ => _ end) => destruct x
      end ].

Lemma range_only_score_before_activity_query (db : database)
    (now : timestamptz) (id : option uuid) :
  range_only (score_before_activity_query db now id).
Proof.
  unfold score_before_activity_query, email_interaction_score,
    time_based_score, open_rate_term, click_rate_term, reply_term,
    bounce_penalty, int4_add, int4_sub, int4_mul.
  range_only_tac.
Qed.

(** The statements before the activity query complete for counters up to a
    million. *)
Lemma score_before_activity_query_values (db : database) (now : timestamptz)
    (id : option uuid) :
  Forall counters_in_range (instantly_integrations db) ->
  within (-5000000) 80 (score_before_activity_query db now id).
Proof.
  intros Hdb. unfold score_before_activity_query.
  pose proof (get_email_metrics_in_range db now id Hdb) as Hm.
  pose proof (email_interaction_score_values _ Hm) as H1.
  exact (time_based_score_values (get_email_metrics db now id) _ H1).
Qed.

(** The activity query assigns to fields of a record that holds no row. *)
Lemma activity_frequency_score_unassigned (db : database) (now : timestamptz)
    (id : option uuid) (v : option Z) :
  activity_frequency_score db now id None v = Raise record_not_assigned.
Proof. reflexivity. Qed.

Lemma engagement_score_sum_raises (db : database) (now : timestamptz)
    (id : option uuid) :
  match score_before_activity_query db now id with
  | Ok _ => engagement_score_sum db now id = Raise record_not_assigned
  | Raise e => engagement_score_sum db now id = Raise e
  end.
Proof.
  unfold engagement_score_sum.
  destruct (score_before_activity_query db now id); reflexivity.
Qed.

Lemma calculate_engagement_score_raises (db : database) (now : timestamptz)
    (id : option uuid) :
  match score_before_activity_query db now id with
  | Ok _ => calculate_engagement_score db now id = Raise record_not_assigned
  | Raise e => calculate_engagement_score db now id = Raise e
  end.
Proof.
  unfold calculate_engagement_score.
  pose proof (engagement_score_sum_raises db now id) as H.
  destruct (score_before_activity_query db now id); rewrite H; reflexivity.
Qed.

Lemma calculate_engagement_score_not_ok (db : database) (now : timestamptz)
    (id : option uuid) (r : option Z) :
  calculate_engagement_score db now id <> Ok r.
Proof.
  pose proof (calculate_engagement_score_raises db now id) as H.
  destruct (score_before_activity_query db now id); rewrite H; discriminate.
Qed.

(** Every call ends in one of two errors. *)
Lemma calculate_engagement_score_error (db : database) (now : timestamptz)
    (id : option uuid) :
  calculate_engagement_score db now id = Raise record_not_assigned
  \/ calculate_engagement_score db now id = Raise integer_out_of_range.
Proof.
  pose proof (calculate_engagement_score_raises db now id) as H.
  pose proof (range_only_score_before_activity_query db now id) as Hr.
  destruct (score_before_activity_query db now id) as [v|e].
  - left. exact H.
  - right. rewrite (Hr e eq_refl) in H. exact H.
Qed.

Lemma calculate_engagement_score_in_range (db : database) (now : timestamptz)
    (id : option uuid) :
  Forall counters_in_range (instantly_integrations db) ->
  calculate_engagement_score db now id = Raise record_not_assigned.
Proof.
  intros Hdb.
  pose proof (calculate_engagement_score_raises db now id) as H.
  destruct (score_before_activity_query_values db now id Hdb)
    as [E|[v [E _]]]; rewrite E in H; exact H.
Qed.

(** The final [GREATEST(0, LEAST(100, v_score))] is never NULL. *)
Lemma clamp_values (v : option Z) :
  exists s, greatest_int (Some 0) (least_int (Some 100) v) = Some s
            /\ 0 <= s <= 100.
Proof.
  destruct v as [v|]; cbn [greatest_int least_int pick].
  - exists (Z.max 0 (Z.min 100 v)). split; [reflexivity|lia].
  - exists (Z.max 0 100). split; [reflexivity|lia].
Qed.

(** C1.  Under the table's check on [priority_score], [calculate_lead_score]
    returns a value in 0..100 for every company id; for a company that has
    a row the sum of the four components is a number, not negative, and the
    value returned is that sum capped at 100.  [calculate_engagement_score]
    returns a score for no input at all: the statement that selects the
    activity counts into fields of [v_activity_metrics], a record to which
    no row was assigned, raises; for counters up to a million this is the
    error of every call.  The cap [GREATEST(0, LEAST(100, v_score))] that
    the function ends with yields a value in 0..100 for every running total,
    but it is never reached: for ten bounces out of ten emails the running
    total is -50 when the failing statement is reached, and the call
    raises. *)
Theorem lead_score_in_range_engagement_score_raises :
  (forall (db : database) (id : option uuid),
      opportunities_checked db ->
      exists s, calculate_lead_score db id = Ok (Some s) /\ 0 <= s <= 100)
  /\ (forall (db : database) (id : option uuid) (c : company)
             (cs : list company),
        filter (fun x => key_eq (c_id x) id) (companies db) = c :: cs ->
        opportunities_checked db ->
        exists v, lead_score_sum db id = Ok (Some v) /\ 0 <= v)
  /\ (forall (db : database) (id : option uuid) (v : Z),
        lead_score_sum db id = Ok (Some v) ->
        calculate_lead_score db id = Ok (Some (Z.min 100 v)))
  /\ (forall (db : database) (now : timestamptz) (id : option uuid)
             (r : option Z),
        calculate_engagement_score db now id <> Ok r)
  /\ (forall (db : database) (now : timestamptz) (id : option uuid),
        Forall counters_in_range (instantly_integrations db) ->
        calculate_engagement_score db now id = Raise record_not_assigned)
  /\ (forall v : option Z,
        exists s, greatest_int (Some 0) (least_int (Some 100) v) = Some s
                  /\ 0 <= s <= 100)
  /\ score_before_activity_query Scenario.bounced_db Scenario.now (Some 2%N)
     = Ok (Some (-50))
  /\ calculate_engagement_score Scenario.bounced_db Scenario.now (Some 2%N)
     = Raise record_not_assigned.
Proof.
  split; [exact calculate_lead_score_values|].
  split.
  { intros db id c cs Hf Hdb.
    destruct (lead_score_sum_existing db id c cs Hf Hdb) as [v [E Hv]].
    exists v. split; [exact E|lia]. }
  split.
  { intros db id v E. unfold calculate_lead_score. rewrite E. reflexivity. }
  split; [exact calculate_engagement_score_not_ok|].
  split; [exact calculate_engagement_score_in_range|].
  split; [exact clamp_values|].
  split; vm_compute; reflexivity.
Qed.

Lemma lead_score_in_range_engagement_score_raises_witness :
  (exists s, calculate_lead_score Scenario.analysed_db (Some 1%N)
             = Ok (Some s) /\ 0 <= s <= 100)
  /\ calculate_engagement_score Scenario.engaged_db Scenario.now (Some 1%N)
     = Raise record_not_assigned.
Proof.
  destruct lead_score_in_range_engagement_score_raises
    as [Hl [_ [_ [_ [He _]]]]].
  split.
  - apply (Hl Scenario.analysed_db (Some 1%N)).
    apply Forall_cons; [unfold priority_score_check; simpl; lia|].
    apply Forall_nil.
  - apply (He Scenario.engaged_db Scenario.now (Some 1%N)).
    apply Forall_cons; [|apply Forall_nil].
    unfold counters_in_range, counter_in_range; simpl. lia.
Defined.

(* ------------------------------------------------------------------ *)
(** ** UPDATE statements *)

Lemma update_where_map {R : Type} (p : R -> bool) (f : R -> exec R)
    (g : R -> R) (rows : list R) :
  (forall r, In r rows -> p r = true -> f r = Ok (g r)) ->
  update_where p f rows = Ok (map (fun r => if p r then g r else r) rows).
Proof.
  induction rows as [|r rows IH]; intros H; [reflexivity|].
  simpl. rewrite IH by (intros r0 Hr0; apply H; right; exact Hr0).
  destruct (p r) eqn:Hp; [|reflexivity].
  rewrite (H r (or_introl eq_refl) Hp). reflexivity.
Qed.

Lemma update_where_inv {R : Type} (p : R -> bool) (f : R -> exec R)
    (rows rows' : list R) :
  update_where p f rows = Ok rows' ->
  Forall2 (fun r r' => if p r then f r = Ok r' else r' = r) rows rows'.
Proof.
  revert rows'. induction rows as [|r rows IH]; intros rows' H; simpl in H.
  - injection H as <-. constructor.
  - destruct (if p r then f r else Ok r) as [r1|e] eqn:E1; cbn [bind] in H;
      [|discriminate].
    destruct (update_where p f rows) as [rest|e] eqn:E2; cbn [bind] in H;
      [|discriminate].
    injection H as <-. constructor; [|apply IH; reflexivity].
    destruct (p r); [exact E1|congruence].
Qed.

Lemma Forall2_map_self {A : Type} (R : A -> A -> Prop) (f : A -> A)
    (l : list A) :
  (forall a, R a (f a)) -> Forall2 R l (map f l).
Proof. intros H. induction l; simpl; constructor; auto. Qed.

Lemma check_between_0_100_ok (s : Z) :
  0 <= s <= 100 -> check_between_0_100 (Some s) = Ok tt.
Proof.
  intros [H0 H1]. unfold check_between_0_100, int_ge, cmp3.
  rewrite !Z.geb_leb.
  apply Z.leb_le in H0. apply Z.leb_le in H1. rewrite H0, H1. reflexivity.
Qed.

(* ------------------------------------------------------------------ *)
(** ** The analysis trigger *)

(** The row written by the trigger's [UPDATE companies]. *)
Lemma stage_trigger_companies (db db' : database) (NEW : website_analysis)
    (OLD : option website_analysis) :
  update_prospect_stage_on_analysis db NEW OLD = Ok db' ->
  companies db'
  = map (fun c => if advances NEW OLD c
                  then mk_company (c_id c) (company_size_category c)
                         (next_stage (status c))
                  else c)
        (companies db).
Proof.
  unfold update_prospect_stage_on_analysis, advances.
  destruct (is_true (analysis_advances NEW OLD)).
  - destruct (update_where _ _ _) as [pt|e]; cbn [bind]; [|discriminate].
    intros [= <-]. reflexivity.
  - intros [= <-]. simpl. symmetry. apply map_id.
Qed.

(** The trigger's condition holds exactly on a completed or newer
    analysis. *)
Lemma analysis_advances_spec (NEW : website_analysis)
    (OLD : option website_analysis) :
  is_true (analysis_advances NEW OLD) = true <-> completed_or_newer NEW OLD.
Proof.
  unfold analysis_advances, completed_or_newer.
  rewrite is_true_or3, orb_true_iff. cbn [is_true int_gt cmp3].
  assert (Hs : (match scraping_status NEW with
                | Scraping.completed => true
                | _ => false
                end) = true <-> scraping_status NEW = Scraping.completed).
  { destruct (scraping_status NEW); split; intros H; try reflexivity;
      discriminate H. }
  assert (Hv : (analysis_version NEW
                >? coalesce (option_map analysis_version OLD) 0) = true
               <-> match OLD with
                   | Some old => analysis_version old < analysis_version NEW
                   | None => 0 < analysis_version NEW
                   end).
  { destruct OLD as [old|]; cbn [option_map coalesce];
      rewrite Z.gtb_ltb, Z.ltb_lt; reflexivity. }
  rewrite <- Hs, <- Hv.
  destruct (analysis_version NEW
            >? coalesce (option_map analysis_version OLD) 0);
    destruct (match scraping_status NEW with
              | Scraping.completed => true
              | _ => false
              end); cbn; tauto.
Qed.

Lemma forward_step_next_stage (NEW : website_analysis)
    (OLD : option website_analysis) (c : company) :
  forward_step NEW OLD c
    (if advances NEW OLD c
     then mk_company (c_id c) (company_size_category c)
            (next_stage (status c))
     else c).
Proof.
  unfold forward_step, advances.
  pose proof (analysis_advances_spec NEW OLD) as Hg.
  destruct (is_true (analysis_advances NEW OLD)) eqn:Eg;
    destruct (N.eqb_spec (c_id c) (wa_company_id NEW)) as [Ec|Ec];
    cbn [andb];
    destruct (status c) eqn:Es; cbn; rewrite ?Es; cbn;
    repeat split; intros; try reflexivity; try congruence; try lia;
    try (exfalso; tauto);
    try (exfalso; match goal with
                  | H : completed_or_newer _ _ |- _ =>
                      apply Hg in H; discriminate H
                  end).
Qed.

Lemma stage_trigger_returns (db : database) (NEW : website_analysis)
    (OLD : option website_analysis) :
  opportunities_checked db ->
  exists db', update_prospect_stage_on_analysis db NEW OLD = Ok db'.
Proof.
  intros Hdb. unfold update_prospect_stage_on_analysis.
  destruct (is_true (analysis_advances NEW OLD)); [|exists db; reflexivity].
  match goal with
  | |- context [calculate_lead_score ?d ?i] =>
      destruct (calculate_lead_score_values d i Hdb) as [s [Es Hs]]
  end.
  erewrite update_where_map.
  - cbn [bind]. eexists. reflexivity.
  - intros r _ _. rewrite Es. cbn [bind].
    rewrite (check_between_0_100_ok s Hs). cbn [bind].
    instantiate (1 := fun r => mk_prospect_tracking_row (pt_company_id r)
                                 (Some s)).
    reflexivity.
Qed.

(** C4.  One firing of the analysis trigger, on a completed or newer
    analysis of a company, moves the company from identified to analyzing or
    from analyzing to analyzed; it leaves a company at analyzed or beyond at
    its stage, so a repeated firing at analyzed changes nothing; it leaves
    every other company, and every company when the analysis is neither
    completed nor newer, as it is; no stage goes backward or moves by more
    than one step.  Under the table's check on [priority_score] the trigger
    completes. *)
Theorem stage_trigger_moves_forward_one_step :
  forall (db : database) (NEW : website_analysis)
         (OLD : option website_analysis),
    (opportunities_checked db ->
     exists db', update_prospect_stage_on_analysis db NEW OLD = Ok db')
    /\ (forall db',
          update_prospect_stage_on_analysis db NEW OLD = Ok db' ->
          Forall2 (forward_step NEW OLD) (companies db) (companies db')).
Proof.
  intros db NEW OLD. split; [apply stage_trigger_returns|].
  intros db' H. rewrite (stage_trigger_companies db db' NEW OLD H).
  apply Forall2_map_self. apply forward_step_next_stage.
Qed.

Lemma stage_trigger_moves_forward_one_step_witness :
  exists db',
    update_prospect_stage_on_analysis Scenario.analysed_db Scenario.analysis
      None = Ok db'
    /\ Forall2 (forward_step Scenario.analysis None)
         (companies Scenario.analysed_db) (companies db')
    /\ map status (companies Scenario.analysed_db) = [Stage.identified]
    /\ map status (companies db') = [Stage.analyzing].
Proof.
  destruct (stage_trigger_moves_forward_one_step Scenario.analysed_db
              Scenario.analysis None) as [Hret Hstep].
  destruct Hret as [db' E].
  - apply Forall_cons; [unfold priority_score_check; simpl; lia|].
    apply Forall_nil.
  - exists db'. split; [exact E|].
    pose proof (Hstep db' E) as F. split; [exact F|].
    split; [reflexivity|].
    destruct (companies db') as [|c' cs'];
      [exfalso; inversion F|].
    destruct cs' as [|c2 cs2];
      [|exfalso; inversion F as [|? ? ? ? _ F']; inversion F'].
    inversion F as [|? ? ? ? Hc _]. clear F.
    destruct Hc as [_ [_ [Hadv _]]].
    cbn [map]. rewrite Hadv; [reflexivity|left; reflexivity|reflexivity
                              |reflexivity].
Defined.

(* ------------------------------------------------------------------ *)
(** ** The engagement trigger *)


(** The assignments of the first [UPDATE] to a row are never made: the
    call of [calculate_engagement_score] among them raises. *)
Lemma engagement_row_refused (db : database) (now : timestamptz)
    (NEW : instantly_email_activity) (r a : instantly_integration) :
  (s <- calculate_engagement_score db now (Some (integration_id NEW)) ;;
   _ <- check_between_0_100 s ;;
   Ok (set_engagement r s (new_temperature NEW (lead_temperature r))
         (Some (activity_timestamp NEW)))) <> Ok a.
Proof.
  destruct (calculate_engagement_score db now (Some (integration_id NEW)))
    as [s|e] eqn:E; cbn [bind]; [|discriminate].
  exfalso. exact (calculate_engagement_score_not_ok _ _ _ _ E).
Qed.

(** An [UPDATE] whose assignments fail on every row: it completes only
    when no row satisfies its [WHERE], and then changes nothing. *)
Lemma update_where_refused {R : Type} (p : R -> bool) (f : R -> exec R)
    (rows : list R) :
  (forall r a, f r <> Ok a) ->
  match update_where p f rows with
  | Ok rows' => rows' = rows /\ forall r, In r rows -> p r = false
  | Raise e => exists r, In r rows /\ p r = true /\ f r = Raise e
  end.
Proof.
  intros Hf. induction rows as [|r rows IH].
  - split; [reflexivity|]. intros r [].
  - simpl. destruct (p r) eqn:Hp.
    + destruct (f r) as [a|e] eqn:E; [exfalso; exact (Hf r a E)|].
      cbn [bind]. exists r. split; [left; reflexivity|]. split; assumption.
    + cbn [bind]. destruct (update_where p f rows) as [rows'|e]; cbn [bind].
      * destruct IH as [-> H]. split; [reflexivity|].
        intros r0 [<-|Hin]; [exact Hp|exact (H r0 Hin)].
      * destruct IH as [r0 [Hin H]]. exists r0.
        split; [right; exact Hin|exact H].
Qed.

Lemma map_unreached {R : Type} (p : R -> bool) (g : R -> R) (rows : list R) :
  (forall r, In r rows -> p r = false) ->
  map (fun r => if p r then g r else r) rows = rows.
Proof.
  intros H. induction rows as [|r rows IH]; [reflexivity|].
  cbn [map]. rewrite (H r (or_introl eq_refl)).
  rewrite IH by (intros r0 Hr0; apply H; right; exact Hr0). reflexivity.
Qed.

Lemma set_instantly_integrations_same (db : database) :
  set_instantly_integrations db (instantly_integrations db) = db.
Proof. destruct db. reflexivity. Qed.

(** The two outcomes of the engagement trigger.  It completes, with the
    database as it was, when the activity is of another kind or no
    integration row has the activity's integration id; otherwise it raises
    the error of [calculate_engagement_score]. *)
Lemma engagement_trigger_outcome (db : database) (now : timestamptz)
    (NEW : instantly_email_activity) :
  match update_engagement_on_activity db now NEW with
  | Ok db' =>
      db' = db
      /\ (is_engagement_activity (activity_type NEW) = true ->
          forall r, In r (instantly_integrations db) ->
                    N.eqb (ii_id r) (integration_id NEW) = false)
  | Raise e =>
      is_engagement_activity (activity_type NEW) = true
      /\ (exists r, In r (instantly_integrations db)
                    /\ N.eqb (ii_id r) (integration_id NEW) = true)
      /\ calculate_engagement_score db now (Some (integration_id NEW))
         = Raise e
  end.
Proof.
  unfold update_engagement_on_activity.
  destruct (is_engagement_activity (activity_type NEW));
    [|split; [reflexivity|discriminate]].
  match goal with
  | |- context [update_where ?p ?f ?rows] =>
      pose proof (update_where_refused p f rows
                    (engagement_row_refused db now NEW)) as H;
      destruct (update_where p f rows) as [rows'|e]; cbn [bind]
  end.
  - destruct H as [-> H].
    rewrite set_instantly_integrations_same.
    destruct (activity_is (activity_type NEW) Activity.replied).
    + rewrite (map_unreached _ _ _ H), set_instantly_integrations_same.
      split; [reflexivity|intros _; exact H].
    + split; [reflexivity|intros _; exact H].
  - destruct H as [r [Hin [Hp Hr]]].
    split; [reflexivity|]. split; [exists r; split; assumption|].
    destruct (calculate_engagement_score db now (Some (integration_id NEW)))
      as [s|e'] eqn:E; cbn [bind] in Hr.
    + exfalso. exact (calculate_engagement_score_not_ok _ _ _ _ E).
    + injection Hr as <-. reflexivity.
Qed.

Lemma engagement_trigger_completes_unchanged (db db' : database)
    (now : timestamptz) (NEW : instantly_email_activity) :
  update_engagement_on_activity db now NEW = Ok db' -> db' = db.
Proof.
  intros E. pose proof (engagement_trigger_outcome db now NEW) as H.
  rewrite E in H. tauto.
Qed.

Lemma engagement_trigger_raises (db : database) (now : timestamptz)
    (NEW : instantly_email_activity) (r : instantly_integration) :
  is_engagement_activity (activity_type NEW) = true ->
  In r (instantly_integrations db) -> ii_id r = integration_id NEW ->
  exists e,
    update_engagement_on_activity db now NEW = Raise e
    /\ calculate_engagement_score db now (Some (integration_id NEW))
       = Raise e.
Proof.
  intros Hk Hin Hid. pose proof (engagement_trigger_outcome db now NEW) as H.
  destruct (update_engagement_on_activity db now NEW) as [db'|e].
  - destruct H as [_ H]. specialize (H Hk r Hin).
    rewrite Hid, N.eqb_refl in H. discriminate H.
  - exists e. split; [reflexivity|tauto].
Qed.

Lemma engagement_trigger_error (db : database) (now : timestamptz)
    (NEW : instantly_email_activity) (r : instantly_integration) :
  is_engagement_activity (activity_type NEW) = true ->
  In r (instantly_integrations db) -> ii_id r = integration_id NEW ->
  (update_engagement_on_activity db now NEW = Raise record_not_assigned
   \/ update_engagement_on_activity db now NEW = Raise integer_out_of_range)
  /\ (Forall counters_in_range (instantly_integrations db) ->
      update_engagement_on_activity db now NEW = Raise record_not_assigned).
Proof.
  intros Hk Hin Hid.
  destruct (engagement_trigger_raises db now NEW r Hk Hin Hid) as [e [E Ec]].
  rewrite E. split.
  - destruct (calculate_engagement_score_error db now
                (Some (integration_id NEW))) as [H|H];
      rewrite H in Ec; injection Ec as <-; [left|right]; reflexivity.
  - intros Hdb.
    rewrite (calculate_engagement_score_in_range db now _ Hdb) in Ec.
    injection Ec as <-. reflexivity.
Qed.



(** C10.  An activity of kind sent, delivered, bounced, unsubscribed or
    complained leaves the whole database as it is when the trigger runs, so
    inserting it changes no integration row: engagement_score,
    lead_temperature, lead_status and last_activity_at keep their values. *)
Theorem other_activities_change_no_integration :
  forall (db : database) (now : timestamptz)
         (NEW : instantly_email_activity),
    In (activity_type NEW)
       [Activity.sent; Activity.delivered; Activity.bounced;
        Activity.unsubscribed; Activity.complained] ->
    update_engagement_on_activity db now NEW = Ok db
    /\ exists db',
         insert_email_activity db now NEW = Ok db'
         /\ instantly_integrations db' = instantly_integrations db.
Proof.
  intros db now NEW H.
  assert (Hk : is_engagement_activity (activity_type NEW) = false).
  { simpl in H. repeat (destruct H as [<-|H]; [reflexivity|]). contradiction. }
  unfold insert_email_activity, update_engagement_on_activity.
  rewrite Hk. split; [reflexivity|].
  eexists. split; reflexivity.
Qed.

Lemma other_activities_change_no_integration_witness :
  update_engagement_on_activity Scenario.engaged_db Scenario.now
    Scenario.bounce = Ok Scenario.engaged_db.
Proof.
  apply (other_activities_change_no_integration Scenario.engaged_db
           Scenario.now Scenario.bounce).
  simpl. auto.
Defined.

(* ------------------------------------------------------------------ *)
(** ** The engagement scenario *)

Lemma scenario_metrics (db : database) (now : timestamptz) (id : uuid)
    (r : instantly_integration) (rest : list instantly_integration) :
  filter (fun x => key_eq (ii_id x) (Some id)) (instantly_integrations db)
  = r :: rest ->
  emails_sent r = Some 100 -> emails_opened r = Some 50 ->
  emails_clicked r = Some 10 -> emails_replied r = Some 1 ->
  emails_bounced r = Some 2 -> last_activity_at r = Some now ->
  get_email_metrics db now (Some id)
  = mk_email_metrics (Some 100) (Some 50) (Some 10) (Some 1) (Some 2)
      (days_since now (first_email_sent_at r))
      (Some (Qdiv (Qdiv (inject_Z 0) (inject_Z 1000000)) (inject_Z 86400))).
Proof.
  intros Hf Hs Ho Hc Hr Hb Hl. unfold get_email_metrics.
  rewrite Hf, Hs, Ho, Hc, Hr, Hb, Hl. unfold days_since at 2.
  cbn [option_map]. rewrite Z.sub_diag. reflexivity.
Qed.

(** C6.  With sent=100, opened=50, clicked=10, replied=1, bounced=2, the
    last activity at the present instant and 10 distinct active days in the
    trailing 30 days, the open-rate term is 15 (the cap on 30), the
    click-rate term 20, the reply term 25, the bounce penalty 10 and the
    recency term 20: the running total is 70 when the activity query is
    reached.  The activity-frequency term would be 20, but the query assigns
    to fields of [v_activity_metrics], to which no row was assigned: the
    function raises and returns no score. *)
Theorem engagement_scenario_raises :
  forall (db : database) (now : timestamptz) (id : uuid)
         (r : instantly_integration) (rest : list instantly_integration),
    filter (fun x => key_eq (ii_id x) (Some id)) (instantly_integrations db)
    = r :: rest ->
    emails_sent r = Some 100 -> emails_opened r = Some 50 ->
    emails_clicked r = Some 10 -> emails_replied r = Some 1 ->
    emails_bounced r = Some 2 -> last_activity_at r = Some now ->
    active_days db now (Some id) = 10 ->
    let m := get_email_metrics db now (Some id) in
    open_rate_term m = Ok (Some 15)
    /\ click_rate_term m = Ok (Some 20)
    /\ reply_term m = Ok (Some 25)
    /\ bounce_penalty m = Ok (Some 10)
    /\ option_map recency_bonus (days_since_last_activity m)
       = Some (Some 20)
    /\ score_before_activity_query db now (Some id) = Ok (Some 70)
    /\ Z.min 20 (active_days db now (Some id) * 2) = 20
    /\ engagement_score_sum db now (Some id) = Raise record_not_assigned
    /\ calculate_engagement_score db now (Some id)
       = Raise record_not_assigned.
Proof.
  intros db now id r rest Hf Hs Ho Hc Hr Hb Hl Hd. cbv zeta.
  assert (Hsum : score_before_activity_query db now (Some id)
                 = Ok (Some 70)).
  { unfold score_before_activity_query.
    rewrite (scenario_metrics db now id r rest Hf Hs Ho Hc Hr Hb Hl).
    vm_compute. reflexivity. }
  pose proof (engagement_score_sum_raises db now (Some id)) as Hraise.
  pose proof (calculate_engagement_score_raises db now (Some id)) as Hcalc.
  rewrite Hsum in Hraise, Hcalc.
  rewrite (scenario_metrics db now id r rest Hf Hs Ho Hc Hr Hb Hl), Hd.
  do 5 (split; [vm_compute; reflexivity|]).
  split; [exact Hsum|].
  split; [reflexivity|].
  split; [exact Hraise|exact Hcalc].
Qed.

Lemma scenario_filter :
  filter (fun x => key_eq (ii_id x) (Some 1%N))
         (instantly_integrations Scenario.engaged_db)
  = [Scenario.integration].
Proof. reflexivity. Qed.

Lemma engagement_scenario_raises_witness :
  active_days Scenario.engaged_db Scenario.now (Some 1%N) = 10
  /\ score_before_activity_query Scenario.engaged_db Scenario.now (Some 1%N)
     = Ok (Some 70)
  /\ calculate_engagement_score Scenario.engaged_db Scenario.now (Some 1%N)
     = Raise record_not_assigned.
Proof.
  split; [vm_compute; reflexivity|].
  destruct (engagement_scenario_raises Scenario.engaged_db Scenario.now 1%N
              Scenario.integration [] scenario_filter eq_refl eq_refl
              eq_refl eq_refl eq_refl eq_refl)
    as [_ [_ [_ [_ [_ [Hsum [_ [_ Hcalc]]]]]]]].
  - vm_compute. reflexivity.
  - split; [exact Hsum|exact Hcalc].
Defined.

(* ------------------------------------------------------------------ *)
(** ** Sample evaluations *)

Example reply_schedule_call :
  analyze_reply_basic (Some "Can we schedule a call next week?")
  = mk_reply_analysis "positive" "meeting_request" "high" true.
Proof. vm_compute. reflexivity. Qed.

Example reply_unsubscribe :
  analyze_reply_basic (Some "Please REMOVE me from this list")
  = mk_reply_analysis "negative" "unsubscribe_request" "high" false.
Proof. vm_compute. reflexivity. Qed.

Example assignment_sample :
  get_optimal_campaign_assignment (Some 75) (Some (inject_Z 35000))
    (Some "Technology Services") (Some "medium") (Some 3)
  = mk_campaign_assignment "entelech_professional_priority"
      "seq_professional_priority" (inject_Z 1) "medium"
      "Lead Score: 75, ROI: $35K, Opportunities: 3".
Proof. vm_compute. reflexivity. Qed.

Example regulated_industries :
  regulated (Some "Family LEGAL Aid") = true
  /\ regulated (Some "Financial Planning") = true
  /\ regulated (Some "Technology Services") = false
  /\ regulated None = false.
Proof. vm_compute. repeat split; reflexivity. Qed.

Example lead_score_sample :
  calculate_lead_score Scenario.analysed_db (Some 1%N) = Ok (Some 65)
  /\ calculate_lead_score Scenario.analysed_db (Some 7%N) = Ok (Some 100)
  /\ calculate_lead_score Scenario.analysed_db None = Ok (Some 100).
Proof. vm_compute. repeat split; reflexivity. Qed.

Example rounding_sample :
  round_half_away (5 # 2) = 3 /\ round_half_away (- (5 # 2)) = -3
  /\ round_half_away (1334 # 10) = 133.
Proof. vm_compute. repeat split; reflexivity. Qed.

(* ------------------------------------------------------------------ *)
(** ** More on the reply classifier *)

Lemma alternatives_topic_keyword (k : string) :
  In k (v_keywords_meeting ++ v_keywords_pricing) -> alternatives k = [k].
Proof.
  intros H. simpl in H.
  repeat (destruct H as [<-|H]; [vm_compute; reflexivity|]).
  contradiction.
Qed.

Lemma meeting_keyword_found (s k : string) :
  In k v_keywords_meeting -> contains k s = true ->
  regex_match_any s v_keywords_meeting = true.
Proof.
  intros Hin Hc. unfold regex_match_any. apply existsb_exists.
  exists k. split; [exact Hin|].
  unfold regex_match. rewrite alternatives_topic_keyword.
  - simpl. rewrite Hc. reflexivity.
  - apply in_or_app. left. exact Hin.
Qed.

Lemma unsubscribe_pattern_is_negative (s : string) :
  regex_match s "remove|unsubscribe" = true ->
  regex_match_any s v_keywords_negative = true.
Proof.
  unfold regex_match.
  change (alternatives "remove|unsubscribe") with ["remove"; "unsubscribe"].
  simpl existsb. intros H.
  apply orb_true_iff in H. destruct H as [H|H].
  - apply existsb_exists. exists "remove". split; [simpl; auto 10|].
    rewrite regex_match_keyword; [exact H|]. simpl. auto 20.
  - rewrite orb_false_r in H.
    apply existsb_exists. exists "unsubscribe". split; [simpl; auto 10|].
    rewrite regex_match_keyword; [exact H|]. simpl. auto 20.
Qed.

(** X1.  Content that holds one of the meeting keywords (meeting, call,
    demo, schedule, chat, discuss) is classified as a meeting request and
    flagged for human review, whatever else it holds. *)
Theorem meeting_keyword_asks_for_review :
  forall (c : option string) (k : string),
    In k v_keywords_meeting ->
    contains k (lower (coalesce c "")) = true ->
    intent (analyze_reply_basic c) = "meeting_request"
    /\ requires_human_review (analyze_reply_basic c) = true.
Proof.
  intros c k Hin Hc.
  unfold analyze_reply_basic, intent, requires_human_review.
  rewrite (meeting_keyword_found (lower (coalesce c "")) k Hin Hc).
  split; [reflexivity|]. apply orb_true_r.
Qed.

Lemma meeting_keyword_asks_for_review_witness :
  intent (analyze_reply_basic (Some "Stop. Let us DISCUSS the cost."))
  = "meeting_request".
Proof.
  apply (meeting_keyword_asks_for_review
           (Some "Stop. Let us DISCUSS the cost.") "discuss").
  - simpl. auto 10.
  - vm_compute. reflexivity.
Defined.

Lemma regex_match_any_app (s : string) (l1 l2 : list string) :
  regex_match_any s (l1 ++ l2)
  = regex_match_any s l1 || regex_match_any s l2.
Proof. unfold regex_match_any. apply existsb_app. Qed.

(** X2.  The fields of a classification agree with one another: confidence
    is high exactly when the sentiment is not neutral; human review is asked
    exactly for a positive sentiment or a meeting request; intent interested
    comes only with sentiment positive, not_interested only with sentiment
    negative and without review, unsubscribe_request only with high
    confidence, and general_inquiry only with neutral sentiment, medium
    confidence and no review. *)
Theorem classification_fields_agree :
  forall c : option string,
    let r := analyze_reply_basic c in
    (confidence r = "high" <-> sentiment r <> "neutral")
    /\ (requires_human_review r = true
        <-> sentiment r = "positive" \/ intent r = "meeting_request")
    /\ (intent r = "interested" -> sentiment r = "positive")
    /\ (intent r = "not_interested" ->
        sentiment r = "negative" /\ requires_human_review r = false)
    /\ (intent r = "unsubscribe_request" -> confidence r = "high")
    /\ (intent r = "general_inquiry" ->
        sentiment r = "neutral" /\ confidence r = "medium"
        /\ requires_human_review r = false).
Proof.
  intros c r. subst r.
  unfold analyze_reply_basic, sentiment, intent, confidence,
    requires_human_review.
  set (s := lower (coalesce c "")).
  rewrite (regex_match_any_app s v_keywords_positive v_keywords_negative).
  pose proof (unsubscribe_pattern_is_negative s) as Hu.
  destruct (regex_match_any s v_keywords_positive);
    destruct (regex_match_any s v_keywords_negative);
    destruct (regex_match_any s v_keywords_meeting);
    destruct (regex_match_any s v_keywords_pricing);
    destruct (regex_match s "remove|unsubscribe");
    try (specialize (Hu eq_refl); discriminate Hu);
    cbn; intuition (try congruence; try discriminate).
Qed.

Lemma classification_fields_agree_witness :
  sentiment (analyze_reply_basic (Some "I am interested")) = "positive"
  /\ confidence (analyze_reply_basic (Some "take me off, unsubscribe"))
     = "high".
Proof.
  split.
  - apply (classification_fields_agree (Some "I am interested")).
    vm_compute. reflexivity.
  - apply (classification_fields_agree (Some "take me off, unsubscribe")).
    vm_compute. reflexivity.
Defined.

(* ------------------------------------------------------------------ *)
(** ** More on the assignment resolver *)

Lemma like_percent (t : list ascii) : like_chars ["%"%char] t = true.
Proof. induction t as [|a t IH]; [reflexivity|exact IH]. Qed.

Lemma like_plain_prefix (w : list ascii) :
  Forall plain_char w ->
  forall t : string,
    like_chars (w ++ ["%"%char]) (list_ascii_of_string t)
    = String.prefix (string_of_list_ascii w) t.
Proof.
  induction 1 as [|c w [Hp Hu] _ IH]; intros t.
  - simpl app. rewrite like_percent. destruct t; reflexivity.
  - destruct t as [|d t]; simpl; rewrite Hp; [reflexivity|].
    rewrite Hu, IH. simpl.
    destruct (Ascii.eqb_spec c d) as [->|Hne].
    + destruct (ascii_dec d d); [reflexivity|contradiction].
    + destruct (ascii_dec c d); [contradiction|reflexivity].
Qed.

Lemma like_percent_nil (p : list ascii) :
  like_chars ("%"%char :: p) [] = like_chars p [] || false.
Proof. reflexivity. Qed.

Lemma like_percent_cons (p : list ascii) (a : ascii) (s : list ascii) :
  like_chars ("%"%char :: p) (a :: s)
  = like_chars p (a :: s) || like_chars ("%"%char :: p) s.
Proof. reflexivity. Qed.

(** [s LIKE '%w%'] for a word [w] without wildcards: [w] occurs in [s]. *)
Lemma like_contains (w : list ascii) (s : string) :
  Forall plain_char w ->
  like_chars ("%"%char :: w ++ ["%"%char]) (list_ascii_of_string s)
  = contains (string_of_list_ascii w) s.
Proof.
  intros Hw. induction s as [|a s IH].
  - pose proof (like_plain_prefix w Hw "") as E.
    change (list_ascii_of_string "") with (@nil ascii) in *.
    rewrite like_percent_nil, E. reflexivity.
  - pose proof (like_plain_prefix w Hw (String a s)) as E.
    change (list_ascii_of_string (String a s))
      with (a :: list_ascii_of_string s) in *.
    rewrite like_percent_cons, IH, E. reflexivity.
Qed.

Lemma ilike_contains_word (s : string) (w : list ascii) :
  Forall plain_char w ->
  lower (string_of_list_ascii ("%"%char :: w ++ ["%"%char]))
  = string_of_list_ascii ("%"%char :: w ++ ["%"%char]) ->
  ilike s (string_of_list_ascii ("%"%char :: w ++ ["%"%char]))
  = contains (string_of_list_ascii w) (lower s).
Proof.
  intros Hw Hl. unfold ilike, like. rewrite Hl.
  rewrite list_ascii_of_string_of_list_ascii.
  apply like_contains. exact Hw.
Qed.

Lemma plain_word (w : list ascii) :
  forallb (fun c => negb (Ascii.eqb c "%") && negb (Ascii.eqb c "_")) w
  = true ->
  Forall plain_char w.
Proof.
  intros H. rewrite forallb_forall in H. apply Forall_forall.
  intros c Hc. specialize (H c Hc). apply andb_true_iff in H.
  destruct H as [H1 H2]. apply negb_true_iff in H1, H2. split; assumption.
Qed.

Lemma ilike_pattern (s pat word : string) :
  pat = string_of_list_ascii
          ("%"%char :: list_ascii_of_string word ++ ["%"%char]) ->
  forallb (fun c => negb (Ascii.eqb c "%") && negb (Ascii.eqb c "_"))
          (list_ascii_of_string word) = true ->
  lower pat = pat ->
  ilike s pat = contains word (lower s).
Proof.
  intros -> Hw Hl.
  rewrite ilike_contains_word; [|apply plain_word; exact Hw|exact Hl].
  rewrite string_of_list_ascii_of_string. reflexivity.
Qed.

(** X3.  The industry test of the resolver is a substring test without
    regard to letter case: an industry is regulated exactly when its text,
    lowered, holds legal, healthcare or financial; a NULL industry is not
    regulated. *)
Theorem regulated_is_substring_match :
  (forall s : string,
      regulated (Some s)
      = contains "legal" (lower s) || contains "healthcare" (lower s)
        || contains "financial" (lower s))
  /\ regulated None = false.
Proof.
  split; [|reflexivity].
  intros s. unfold regulated, ilike_any, regulated_patterns, is_true.
  simpl existsb.
  rewrite (ilike_pattern s "%legal%" "legal") by reflexivity.
  rewrite (ilike_pattern s "%healthcare%" "healthcare") by reflexivity.
  rewrite (ilike_pattern s "%financial%" "financial") by reflexivity.
  destruct (contains "legal" (lower s));
    destruct (contains "healthcare" (lower s));
    destruct (contains "financial" (lower s)); reflexivity.
Qed.

(** X4.  The delay returned by the resolver is one of 0.5, 1, 2, 4 and 24
    hours; it is at least 4 for a company size of enterprise or large and at
    least 2 for a regulated industry; and a delay of half an hour is given
    only to the enterprise campaign, for an industry that is not regulated
    and a company that is neither enterprise nor large. *)
Theorem assignment_delay_values :
  forall (ls : option Z) (roi : option Q) (ind size : option string)
         (opps : option Z),
    let r := get_optimal_campaign_assignment ls roi ind size opps in
    In (delay_hours r)
       [1 # 2; inject_Z 1; inject_Z 2; inject_Z 4; inject_Z 24]
    /\ (enterprise_or_large size = true -> (inject_Z 4 <= delay_hours r)%Q)
    /\ (regulated ind = true -> (inject_Z 2 <= delay_hours r)%Q)
    /\ (delay_hours r = 1 # 2 ->
        campaign_id r = "entelech_enterprise_vip"
        /\ regulated ind = false /\ enterprise_or_large size = false).
Proof.
  intros ls roi ind size opps r. subst r.
  unfold get_optimal_campaign_assignment.
  rewrite select_tier_decision_table.
  unfold industry_adjust, size_adjust, regulated, enterprise_or_large.
  cbn [delay_hours campaign_id].
  destruct (decision_table ls roi opps);
    destruct (is_true (ilike_any ind regulated_patterns));
    destruct (is_true (size_in_enterprise_large size));
    vm_compute; repeat split; intros; try discriminate; auto 10.
Qed.

Lemma assignment_delay_values_witness :
  (inject_Z 4
   <= delay_hours (get_optimal_campaign_assignment (Some 95%Z) None None
                     (Some "large") None))%Q.
Proof.
  apply (assignment_delay_values (Some 95) None None (Some "large") None).
  reflexivity.
Defined.

Lemma Qltb_lt (a b : Q) : Qltb a b = true <-> (a < b)%Q.
Proof.
  unfold Qltb. rewrite negb_true_iff. split.
  - intros H. apply Qnot_le_lt. intros Hle.
    apply Qle_bool_iff in Hle. congruence.
  - intros H. destruct (Qle_bool b a) eqn:E; [|reflexivity].
    apply Qle_bool_iff in E. exfalso. exact (Qlt_not_le _ _ H E).
Qed.

Lemma at_least_mono (x y k : Z) :
  x <= y -> at_least (Some x) k = true -> at_least (Some y) k = true.
Proof. simpl. rewrite !Z.leb_le. lia. Qed.

Lemma above_mono (x y : Q) (k : Z) :
  (x <= y)%Q -> above (Some x) k = true -> above (Some y) k = true.
Proof.
  simpl. rewrite !Qltb_lt. intros Hxy H. exact (Qlt_le_trans _ _ _ H Hxy).
Qed.

Lemma qmax_mono (a b c : Q) : (a <= b)%Q -> (qmax a c <= qmax b c)%Q.
Proof.
  intros Hab. unfold qmax.
  destruct (Qle_bool a c) eqn:Ea; destruct (Qle_bool b c) eqn:Eb.
  - apply Qle_refl.
  - apply Qlt_le_weak, Qnot_le_lt. intros H.
    apply Qle_bool_iff in H. congruence.
  - apply Qle_bool_iff in Eb. exact (Qle_trans _ _ _ Hab Eb).
  - exact Hab.
Qed.

Lemma tier_delay_antitone (ls ls' : Z) (roi roi' : Q) (opps opps' : Z) :
  ls <= ls' -> (roi <= roi')%Q -> opps <= opps' ->
  (tier_delay (decision_table (Some ls') (Some roi') (Some opps'))
   <= tier_delay (decision_table (Some ls) (Some roi) (Some opps)))%Q.
Proof.
  intros Hl Hr Ho.
  assert (M1 : at_least (Some ls) 80 || above (Some roi) 50000 = true ->
               at_least (Some ls') 80 || above (Some roi') 50000 = true).
  { rewrite !orb_true_iff. intros [H|H];
      [left; exact (at_least_mono _ _ _ Hl H)
      |right; exact (above_mono _ _ _ Hr H)]. }
  assert (M2 : at_least (Some ls) 60
               || above (Some roi) 25000 && at_least (Some opps) 2 = true ->
               at_least (Some ls') 60
               || above (Some roi') 25000 && at_least (Some opps') 2 = true).
  { rewrite !orb_true_iff, !andb_true_iff. intros [H|[H1 H2]];
      [left; exact (at_least_mono _ _ _ Hl H)
      |right; split;
       [exact (above_mono _ _ _ Hr H1)|exact (at_least_mono _ _ _ Ho H2)]]. }
  assert (M3 : at_least (Some ls) 40 || at_least (Some opps) 1 = true ->
               at_least (Some ls') 40 || at_least (Some opps') 1 = true).
  { rewrite !orb_true_iff. intros [H|H];
      [left; exact (at_least_mono _ _ _ Hl H)
      |right; exact (at_least_mono _ _ _ Ho H)]. }
  unfold decision_table.
  destruct (at_least (Some ls) 80 || above (Some roi) 50000);
    [rewrite (M1 eq_refl); apply Qle_refl|].
  destruct (at_least (Some ls') 80 || above (Some roi') 50000).
  { destruct (at_least (Some ls) 60
              || above (Some roi) 25000 && at_least (Some opps) 2);
      [|destruct (at_least (Some ls) 40 || at_least (Some opps) 1)];
      discriminate. }
  destruct (at_least (Some ls) 60
            || above (Some roi) 25000 && at_least (Some opps) 2);
    [rewrite (M2 eq_refl); apply Qle_refl|].
  destruct (at_least (Some ls') 60
            || above (Some roi') 25000 && at_least (Some opps') 2).
  { destruct (at_least (Some ls) 40 || at_least (Some opps) 1);
      discriminate. }
  destruct (at_least (Some ls) 40 || at_least (Some opps) 1);
    [rewrite (M3 eq_refl); apply Qle_refl|].
  destruct (at_least (Some ls') 40 || at_least (Some opps') 1);
    [discriminate|apply Qle_refl].
Qed.

(** X5.  For the same industry and company size, a prospect whose lead
    score, ROI potential and opportunity count are all at least those of
    another is never given a longer delay. *)
Theorem better_prospect_never_waits_longer :
  forall (ls ls' : Z) (roi roi' : Q) (opps opps' : Z)
         (ind size : option string),
    ls <= ls' -> (roi <= roi')%Q -> opps <= opps' ->
    (delay_hours (get_optimal_campaign_assignment (Some ls') (Some roi') ind
                    size (Some opps'))
     <= delay_hours (get_optimal_campaign_assignment (Some ls) (Some roi) ind
                       size (Some opps)))%Q.
Proof.
  intros ls ls' roi roi' opps opps' ind size Hl Hr Ho.
  pose proof (tier_delay_antitone ls ls' roi roi' opps opps' Hl Hr Ho) as Ht.
  unfold get_optimal_campaign_assignment.
  rewrite !select_tier_decision_table.
  unfold industry_adjust, size_adjust, tier_vars.
  cbn [delay_hours].
  destruct (is_true (ilike_any ind regulated_patterns));
    destruct (is_true (size_in_enterprise_large size));
    cbn [v_delay_hours]; repeat apply qmax_mono; exact Ht.
Qed.

Lemma better_prospect_never_waits_longer_witness :
  (delay_hours (get_optimal_campaign_assignment (Some 85%Z)
                  (Some (inject_Z 0)) (Some "Legal") None (Some 0%Z))
   <= delay_hours (get_optimal_campaign_assignment (Some 45%Z)
                     (Some (inject_Z 0)) (Some "Legal") None (Some 0%Z)))%Q.
Proof.
  apply better_prospect_never_waits_longer.
  - lia.
  - apply Qle_refl.
  - lia.
Defined.

(* ------------------------------------------------------------------ *)
(** ** More on the lead score *)

(** X6.  For an id that no company row has (a NULL id included) the sum of
    the components is NULL, which the final [LEAST(100, v_score)] ignores:
    the function returns 100. *)
Theorem lead_score_without_company_is_100 :
  (forall (db : database) (id : option uuid),
      opportunities_checked db ->
      filter (fun x => key_eq (c_id x) id) (companies db) = [] ->
      lead_score_sum db id = Ok None
      /\ calculate_lead_score db id = Ok (Some 100))
  /\ (forall db : database,
        opportunities_checked db ->
        calculate_lead_score db None = Ok (Some 100)).
Proof.
  assert (H : forall (db : database) (id : option uuid),
             opportunities_checked db ->
             filter (fun x => key_eq (c_id x) id) (companies db) = [] ->
             lead_score_sum db id = Ok None
             /\ calculate_lead_score db id = Ok (Some 100)).
  { intros db id Hdb Hf.
    assert (Ec : company_size_score db id = None)
      by (unfold company_size_score; rewrite Hf; reflexivity).
    pose proof (lead_score_sum_of_size db id None Hdb Ec) as Es.
    cbv beta iota in Es. split; [exact Es|].
    unfold calculate_lead_score. rewrite Es. reflexivity. }
  split; [exact H|].
  intros db Hdb. apply H; [exact Hdb|].
  induction (companies db) as [|c cs IH]; [reflexivity|exact IH].
Qed.

Lemma lead_score_without_company_is_100_witness :
  calculate_lead_score Scenario.analysed_db (Some 7%N) = Ok (Some 100).
Proof.
  destruct lead_score_without_company_is_100 as [H _].
  apply (H Scenario.analysed_db (Some 7%N)).
  - apply Forall_cons; [unfold priority_score_check; simpl; lia|].
    apply Forall_nil.
  - reflexivity.
Defined.

(** X7.  For a company that has a row, under the table's check on
    [priority_score], the lead score is the plain sum of the four components
    and lies between 5 and 90: the cap at 100 is never reached. *)
Theorem lead_score_of_company_between_5_and_90 :
  forall (db : database) (id : option uuid) (c : company)
         (cs : list company),
    filter (fun x => key_eq (c_id x) id) (companies db) = c :: cs ->
    opportunities_checked db ->
    exists s, lead_score_sum db id = Ok (Some s)
              /\ calculate_lead_score db id = Ok (Some s)
              /\ 5 <= s <= 90.
Proof.
  intros db id c cs Hf Hdb.
  destruct (lead_score_sum_existing db id c cs Hf Hdb) as [v [E Hv]].
  exists v. split; [exact E|]. split; [|exact Hv].
  unfold calculate_lead_score. rewrite E. cbn [bind least_int pick].
  rewrite Z.min_r by lia. reflexivity.
Qed.

Lemma lead_score_of_company_between_5_and_90_witness :
  exists s, calculate_lead_score Scenario.analysed_db (Some 1%N)
            = Ok (Some s) /\ 5 <= s <= 90.
Proof.
  destruct (lead_score_of_company_between_5_and_90 Scenario.analysed_db
              (Some 1%N) (mk_company 1%N (Some Size.medium) Stage.identified)
              []) as [s [_ [E H]]].
  - reflexivity.
  - apply Forall_cons; [unfold priority_score_check; simpl; lia|].
    apply Forall_nil.
  - exists s. split; assumption.
Defined.

(* ------------------------------------------------------------------ *)
(** ** More on the engagement score *)

Lemma reply_term_overflow (m : email_metrics) (n : Z) :
  m_emails_replied m = Some n -> 85899345 < n ->
  reply_term m = Raise integer_out_of_range.
Proof.
  intros Hn H. unfold reply_term. rewrite Hn.
  unfold int4_mul, int4_op, int4_check, in_int4.
  assert (E : (n * 25 <=? int4_max) = false)
    by (apply Z.leb_gt; unfold int4_max; lia).
  rewrite E, andb_false_r. reflexivity.
Qed.

Lemma email_interaction_score_overflow (m : email_metrics) (n : Z)
    (v : option Z) :
  is_true (int_gt (m_emails_sent m) (Some 0)) = true ->
  m_emails_replied m = Some n -> 85899345 < n ->
  forall a, email_interaction_score m v <> Ok a.
Proof.
  intros Hs Hn H a. unfold email_interaction_score. rewrite Hs.
  destruct (open_rate_term m) as [t1|]; cbn [bind]; [|discriminate].
  destruct (int4_add v t1) as [v1|]; cbn [bind]; [|discriminate].
  destruct (if is_true (int_gt (m_emails_opened m) (Some 0))
            then t <- click_rate_term m ;; int4_add v1 t
            else Ok v1) as [v2|]; cbn [bind]; [|discriminate].
  rewrite (reply_term_overflow m n Hn H). discriminate.
Qed.

(** X8.  The error of [calculate_engagement_score].  Every call raises
    "record is not assigned yet" or, when an [INTEGER] operation of an
    earlier statement overflows, "integer out of range".  For an id that no
    integration row has, the fields of [v_email_metrics] are NULL, no
    earlier statement fails and the error is "record is not assigned yet".
    For an integration with emails sent and more than 85899345 replies the
    overflow comes first. *)
Theorem engagement_score_error :
  forall (db : database) (now : timestamptz) (id : option uuid),
    (calculate_engagement_score db now id = Raise record_not_assigned
     \/ calculate_engagement_score db now id = Raise integer_out_of_range)
    /\ (filter (fun r => key_eq (ii_id r) id) (instantly_integrations db)
        = [] ->
        calculate_engagement_score db now id = Raise record_not_assigned)
    /\ (forall (r : instantly_integration)
               (rest : list instantly_integration) (n : Z),
          filter (fun x => key_eq (ii_id x) id) (instantly_integrations db)
          = r :: rest ->
          is_true (int_gt (emails_sent r) (Some 0)) = true ->
          emails_replied r = Some n -> 85899345 < n ->
          calculate_engagement_score db now id
          = Raise integer_out_of_range).
Proof.
  intros db now id.
  split; [apply calculate_engagement_score_error|].
  pose proof (calculate_engagement_score_raises db now id) as Hcalc.
  split.
  - intros Hf. unfold score_before_activity_query, get_email_metrics in Hcalc.
    rewrite Hf in Hcalc. exact Hcalc.
  - intros r rest n Hf Hs Hn H.
    pose proof (range_only_score_before_activity_query db now id) as Hrange.
    destruct (score_before_activity_query db now id) as [v|e] eqn:E.
    + exfalso. unfold score_before_activity_query in E. cbv zeta in E.
      destruct (email_interaction_score (get_email_metrics db now id)
                  (Some 0)) as [v1|e1] eqn:E1; cbn [bind] in E;
        [|discriminate E].
      revert E1. apply email_interaction_score_overflow with (n := n);
        [unfold get_email_metrics; rewrite Hf; exact Hs
        |unfold get_email_metrics; rewrite Hf; exact Hn
        |exact H].
    + rewrite (Hrange e eq_refl) in Hcalc. exact Hcalc.
Qed.

Lemma engagement_score_error_witness :
  calculate_engagement_score Scenario.engaged_db Scenario.now (Some 9%N)
  = Raise record_not_assigned
  /\ calculate_engagement_score Sample.many_replies_db Scenario.now
       (Some 4%N)
     = Raise integer_out_of_range.
Proof.
  split.
  - destruct (engagement_score_error Scenario.engaged_db Scenario.now
                (Some 9%N)) as [_ [H _]].
    apply H. reflexivity.
  - destruct (engagement_score_error Sample.many_replies_db Scenario.now
                (Some 4%N)) as [_ [_ H]].
    apply (H Sample.many_replies [] 100000000); [reflexivity|reflexivity
                                                 |reflexivity|lia].
Defined.

(** X11.  The reply term is 25 from the first reply on: it is 25 for a
    reply counter between 1 and 85899345, and the product [emails_replied *
    25] leaves the [INTEGER] range above that, where the function raises
    instead of returning a score. *)
Theorem reply_term_saturates_then_raises :
  forall (m : email_metrics) (n : Z),
    m_emails_replied m = Some n ->
    (1 <= n <= 85899345 -> reply_term m = Ok (Some 25))
    /\ (n = 0 -> reply_term m = Ok (Some 0))
    /\ (85899345 < n -> reply_term m = Raise integer_out_of_range).
Proof.
  intros m n Hn. unfold reply_term. rewrite Hn. unfold int4_mul.
  split; [|split]; intros H.
  - rewrite int4_op_ok by (unfold int4_min, int4_max; lia).
    cbn [bind least_int pick]. rewrite Z.min_l by lia. reflexivity.
  - subst n. reflexivity.
  - unfold int4_op, int4_check, in_int4.
    assert (E : (n * 25 <=? int4_max) = false)
      by (apply Z.leb_gt; unfold int4_max; lia).
    rewrite E, andb_false_r. reflexivity.
Qed.

Lemma reply_term_saturates_then_raises_witness :
  reply_term (get_email_metrics Scenario.engaged_db Scenario.now (Some 1%N))
  = Ok (Some 25).
Proof.
  apply (reply_term_saturates_then_raises
           (get_email_metrics Scenario.engaged_db Scenario.now (Some 1%N)) 1).
  - reflexivity.
  - lia.
Defined.

(* ------------------------------------------------------------------ *)
(** ** More on the analysis trigger *)

Lemma company_size_score_map (db : database) (f : company -> company)
    (id : option uuid) :
  (forall c, c_id (f c) = c_id c
             /\ company_size_category (f c) = company_size_category c) ->
  company_size_score (set_companies db (map f (companies db))) id
  = company_size_score db id.
Proof.
  intros Hf. unfold company_size_score, set_companies. cbn [companies].
  induction (companies db) as [|c cs IH]; [reflexivity|].
  cbn [map filter]. destruct (Hf c) as [Hi Hc]. rewrite Hi.
  destruct (key_eq (c_id c) id); [|exact IH].
  cbn [select_into]. rewrite Hc. reflexivity.
Qed.

(** The lead score does not read the stage of a company. *)
Lemma calculate_lead_score_map (db : database) (f : company -> company)
    (id : option uuid) :
  (forall c, c_id (f c) = c_id c
             /\ company_size_category (f c) = company_size_category c) ->
  calculate_lead_score (set_companies db (map f (companies db))) id
  = calculate_lead_score db id.
Proof.
  intros Hf. unfold calculate_lead_score, lead_score_sum.
  rewrite (company_size_score_map db f id Hf). reflexivity.
Qed.

Lemma stage_step_keeps_identity (NEW : website_analysis) (c : company) :
  c_id (if N.eqb (c_id c) (wa_company_id NEW)
        then mk_company (c_id c) (company_size_category c)
               (next_stage (status c))
        else c) = c_id c
  /\ company_size_category
       (if N.eqb (c_id c) (wa_company_id NEW)
        then mk_company (c_id c) (company_size_category c)
               (next_stage (status c))
        else c) = company_size_category c.
Proof. destruct (N.eqb (c_id c) (wa_company_id NEW)); split; reflexivity. Qed.

Lemma Forall2_impl_in {A B : Type} (P Q : A -> B -> Prop)
    (l : list A) (l' : list B) :
  (forall a b, P a b -> Q a b) -> Forall2 P l l' -> Forall2 Q l l'.
Proof. intros H F. induction F; constructor; auto. Qed.

Lemma calculate_lead_score_not_null (db : database) (id : option uuid) :
  calculate_lead_score db id <> Ok None.
Proof.
  unfold calculate_lead_score.
  destruct (lead_score_sum db id) as [[v|]|]; cbn; discriminate.
Qed.

(** X13.  A firing of the analysis trigger writes nothing but the stage of
    the analysed company and the lead score of its tracking rows: the five
    other tables are returned as they were, every tracking row of another
    company is untouched, and each tracking row of the analysed company
    holds the value that [calculate_lead_score] returns for it, a number
    between 0 and 100. *)
Theorem analysis_trigger_writes_stage_and_score_only :
  forall (db db' : database) (NEW : website_analysis)
         (OLD : option website_analysis),
    update_prospect_stage_on_analysis db NEW OLD = Ok db' ->
    website_analyses db' = website_analyses db
    /\ customer_journey_analyses db' = customer_journey_analyses db
    /\ automation_opportunities db' = automation_opportunities db
    /\ instantly_integrations db' = instantly_integrations db
    /\ instantly_email_activities db' = instantly_email_activities db
    /\ (is_true (analysis_advances NEW OLD) = false -> db' = db)
    /\ (is_true (analysis_advances NEW OLD) = true ->
        Forall2 (tracking_effect db NEW) (prospect_tracking db)
          (prospect_tracking db')).
Proof.
  intros db db' NEW OLD. unfold update_prospect_stage_on_analysis.
  destruct (is_true (analysis_advances NEW OLD)).
  - rewrite (calculate_lead_score_map db _ (Some (wa_company_id NEW))
               (stage_step_keeps_identity NEW)).
    destruct (update_where _ _ _) as [pt|e] eqn:E; cbn [bind];
      [|discriminate].
    intros [= <-]. cbn.
    repeat (split; [reflexivity|]). split; [discriminate|].
    intros _. apply update_where_inv in E.
    revert E. apply Forall2_impl_in. intros r r' Hr.
    unfold tracking_effect.
    destruct (N.eqb (pt_company_id r) (wa_company_id NEW)).
    + destruct (calculate_lead_score db (Some (wa_company_id NEW)))
        as [s|e] eqn:Es; cbn [bind] in Hr; [|discriminate].
      unfold check_between_0_100 in Hr.
      destruct s as [s|].
      * cbn [int_ge cmp3 and3] in Hr. rewrite !Z.geb_leb in Hr.
        destruct (0 <=? s) eqn:E0; destruct (s <=? 100) eqn:E1;
          cbn [bind] in Hr; try discriminate.
        injection Hr as <-. cbn. split; [reflexivity|].
        split; [reflexivity|]. exists s. split; [reflexivity|].
        apply Z.leb_le in E0, E1. lia.
      * exfalso. exact (calculate_lead_score_not_null _ _ Es).
    + subst r'. split; reflexivity.
  - intros [= <-]. repeat (split; [reflexivity|]). discriminate.
Qed.

Lemma analysis_trigger_writes_stage_and_score_only_witness :
  exists db',
    update_prospect_stage_on_analysis Scenario.analysed_db Scenario.analysis
      None = Ok db'
    /\ automation_opportunities db'
       = automation_opportunities Scenario.analysed_db
    /\ map lead_score (prospect_tracking db') = [Some 65].
Proof.
  eexists. split; [vm_compute; reflexivity|].
  split.
  - eapply (analysis_trigger_writes_stage_and_score_only
              Scenario.analysed_db _ Scenario.analysis None).
    vm_compute. reflexivity.
  - reflexivity.
Defined.

Lemma next_stage_twice (s : Stage.t) :
  match s with
  | Stage.identified | Stage.analyzing | Stage.analyzed =>
      next_stage (next_stage s) = Stage.analyzed
  | _ => next_stage (next_stage s) = s
  end.
Proof. destruct s; reflexivity. Qed.

(** X14.  Two firings of the analysis trigger for the same company, each
    with its condition met, bring the company to analyzed from identified,
    from analyzing and from analyzed alike, leave a company at a later
    stage where it is, and touch no other company. *)
Theorem two_firings_reach_analyzed :
  forall (db db1 db2 : database) (NEW NEW2 : website_analysis)
         (OLD OLD2 : option website_analysis),
    wa_company_id NEW2 = wa_company_id NEW ->
    is_true (analysis_advances NEW OLD) = true ->
    is_true (analysis_advances NEW2 OLD2) = true ->
    update_prospect_stage_on_analysis db NEW OLD = Ok db1 ->
    update_prospect_stage_on_analysis db1 NEW2 OLD2 = Ok db2 ->
    Forall2 (two_steps NEW) (companies db) (companies db2).
Proof.
  intros db db1 db2 NEW NEW2 OLD OLD2 Hid H1 H2 E1 E2.
  rewrite (stage_trigger_companies db1 db2 NEW2 OLD2 E2).
  rewrite (stage_trigger_companies db db1 NEW OLD E1).
  rewrite map_map. apply Forall2_map_self. intros c.
  unfold advances, two_steps. rewrite H1, H2, Hid. cbn [andb].
  destruct (N.eqb_spec (c_id c) (wa_company_id NEW)) as [E|E].
  - cbn [c_id]. rewrite E, N.eqb_refl. cbn [c_id status].
    split; [reflexivity|]. split; [|intros Hne; contradiction].
    intros _. pose proof (next_stage_twice (status c)) as Hs.
    destruct (status c); exact Hs.
  - destruct (N.eqb_spec (c_id c) (wa_company_id NEW)); [contradiction|].
    split; [reflexivity|]. split; [intros He; contradiction|reflexivity].
Qed.

Lemma two_firings_reach_analyzed_witness :
  exists db1 db2,
    update_prospect_stage_on_analysis Scenario.analysed_db Scenario.analysis
      None = Ok db1
    /\ update_prospect_stage_on_analysis db1 Scenario.analysis
         (Some Scenario.analysis) = Ok db2
    /\ Forall2 (two_steps Scenario.analysis)
         (companies Scenario.analysed_db) (companies db2).
Proof.
  destruct (update_prospect_stage_on_analysis Scenario.analysed_db
              Scenario.analysis None) as [db1|e] eqn:E1;
    [|vm_compute in E1; discriminate E1].
  destruct (update_prospect_stage_on_analysis db1 Scenario.analysis
              (Some Scenario.analysis)) as [db2|e] eqn:E2.
  - exists db1, db2. split; [reflexivity|]. split; [exact E2|].
    apply (two_firings_reach_analyzed Scenario.analysed_db db1 db2
             Scenario.analysis Scenario.analysis None
             (Some Scenario.analysis));
      [reflexivity|reflexivity|reflexivity|exact E1|exact E2].
  - exfalso. vm_compute in E1. injection E1 as <-.
    vm_compute in E2. discriminate E2.
Defined.



(* ------------------------------------------------------------------ *)
(** ** More on the engagement trigger *)

(** X16.  The engagement trigger writes nothing.  When it completes the
    database is as it was, and it completes when no integration row has the
    activity's integration id.  For an opened, clicked or replied activity
    whose integration has a row the trigger raises "record is not assigned
    yet" or "integer out of range", and so does the [INSERT] of the
    activity, which is therefore not stored; for counters up to a million
    the error is "record is not assigned yet". *)
Theorem engagement_activity_is_refused :
  forall (db : database) (now : timestamptz)
         (NEW : instantly_email_activity),
    (forall db',
        update_engagement_on_activity db now NEW = Ok db' -> db' = db)
    /\ ((forall r, In r (instantly_integrations db) ->
                   ii_id r <> integration_id NEW) ->
        update_engagement_on_activity db now NEW = Ok db)
    /\ (In (activity_type NEW)
           [Activity.opened; Activity.clicked; Activity.replied] ->
        (exists r, In r (instantly_integrations db)
                   /\ ii_id r = integration_id NEW) ->
        (update_engagement_on_activity db now NEW = Raise record_not_assigned
         \/ update_engagement_on_activity db now NEW
            = Raise integer_out_of_range)
        /\ (insert_email_activity db now NEW = Raise record_not_assigned
            \/ insert_email_activity db now NEW = Raise integer_out_of_range)
        /\ (Forall counters_in_range (instantly_integrations db) ->
            update_engagement_on_activity db now NEW
            = Raise record_not_assigned
            /\ insert_email_activity db now NEW
               = Raise record_not_assigned)).
Proof.
  intros db now NEW.
  split; [intros db'; apply engagement_trigger_completes_unchanged|].
  split.
  - intros Hno. pose proof (engagement_trigger_outcome db now NEW) as H.
    destruct (update_engagement_on_activity db now NEW) as [db'|e].
    + destruct H as [-> _]. reflexivity.
    + exfalso. destruct H as [_ [[r [Hin Hr]] _]].
      apply N.eqb_eq in Hr. exact (Hno r Hin Hr).
  - intros Hk [r [Hin Hid]].
    assert (Hk' : is_engagement_activity (activity_type NEW) = true).
    { simpl in Hk. repeat (destruct Hk as [<-|Hk]; [reflexivity|]).
      contradiction. }
    destruct (engagement_trigger_error db now NEW r Hk' Hin Hid)
      as [Ht Htr].
    unfold insert_email_activity.
    match goal with
    | |- context [update_engagement_on_activity ?d now NEW = Raise _ \/ _] =>
        lazymatch d with
        | db => fail
        | _ =>
            destruct (engagement_trigger_error d now NEW r Hk' Hin Hid)
              as [Hi Hir]
        end
    end.
    split; [exact Ht|]. split; [exact Hi|].
    intros Hdb. split; [exact (Htr Hdb)|exact (Hir Hdb)].
Qed.

Lemma engagement_activity_is_refused_witness :
  update_engagement_on_activity Scenario.engaged_db Scenario.now
    Scenario.opened
  = Raise record_not_assigned.
Proof.
  destruct (engagement_activity_is_refused Scenario.engaged_db Scenario.now
              Scenario.opened) as [_ [_ H]].
  destruct H as [_ H].
  - simpl. auto.
  - exists Scenario.integration. split; [left; reflexivity|reflexivity].
  - apply H. apply Forall_cons; [|apply Forall_nil].
    unfold counters_in_range, counter_in_range; simpl. lia.
Defined.

(* ------------------------------------------------------------------ *)
(** ** The views *)

Lemma Qeq_bool_inject_Z (n : Z) :
  n <> 0 -> Qeq_bool (inject_Z n) (inject_Z 0) = false.
Proof.
  intros Hn. destruct (Qeq_bool (inject_Z n) (inject_Z 0)) eqn:E;
    [|reflexivity].
  apply Qeq_bool_iff in E.
  destruct (inject_Z_injective n 0) as [H _]. exfalso. exact (Hn (H E)).
Qed.

(** A division by [NULLIF(x, 0)] never fails. *)
Lemma numeric_div_nullif (a : option Q) (x : option Z) :
  exists q, numeric_div a (to_numeric (nullif x 0)) = Value q.
Proof.
  unfold numeric_div, nullif.
  destruct a as [a|]; destruct x as [n|]; cbn;
    try (eexists; reflexivity).
  destruct (Z.eqb_spec n 0); cbn; [eexists; reflexivity|].
  rewrite Qeq_bool_inject_Z by assumption. eexists; reflexivity.
Qed.

Lemma unsubscribe_percentage_value (ic : instantly_campaign) :
  exists p, unsubscribe_percentage ic = Value p.
Proof.
  unfold unsubscribe_percentage.
  destruct (numeric_div_nullif (to_numeric (total_unsubscribes ic))
              (total_emails_sent ic)) as [q E].
  rewrite E. eexists. reflexivity.
Qed.

Lemma unsubscribe_penalty_value (ic : instantly_campaign) :
  exists p, unsubscribe_penalty ic = Value p.
Proof.
  unfold unsubscribe_penalty.
  destruct (is_true (int_gt (total_unsubscribes ic) (Some 0)));
    [|eexists; reflexivity].
  destruct (unsubscribe_percentage_value ic) as [p E].
  rewrite E. eexists. reflexivity.
Qed.

Lemma qmax_ge_l (a b : Q) : (a <= qmax a b)%Q.
Proof.
  unfold qmax. destruct (Qle_bool a b) eqn:E; [|apply Qle_refl].
  apply Qle_bool_iff. exact E.
Qed.

Lemma score_clamp_values (x : option Q) :
  exists s, least_num (Some (inject_Z 100))
              (greatest_num (Some (inject_Z 0)) x) = Some s
            /\ (inject_Z 0 <= s)%Q /\ (s <= inject_Z 100)%Q.
Proof.
  destruct x as [x|]; cbn [least_num greatest_num pick].
  - eexists. split; [reflexivity|]. split; [|apply qmin_le_l].
    apply qmin_nonneg; [discriminate|apply qmax_ge_l].
  - eexists. split; [reflexivity|]. split; [|apply qmin_le_l].
    apply qmin_nonneg; discriminate.
Qed.

(** X19.  The performance score of a campaign never fails on a division (the
    divisor is [NULLIF(total_emails_sent, 0)]), is never NULL and lies
    between 0 and 100; it is 0 as soon as one of the four rates is NULL. *)
Theorem performance_score_between_0_and_100 :
  (forall ic : instantly_campaign,
      exists s, performance_score ic = Value (Some s)
                /\ (inject_Z 0 <= s)%Q /\ (s <= inject_Z 100)%Q)
  /\ (forall ic : instantly_campaign,
        overall_open_rate ic = None \/ overall_click_rate ic = None
        \/ overall_reply_rate ic = None \/ overall_bounce_rate ic = None ->
        performance_score ic = Value (Some (inject_Z 0))).
Proof.
  split.
  - intros ic. unfold performance_score.
    destruct (unsubscribe_penalty_value ic) as [p E]. rewrite E.
    cbn [and_then].
    match goal with
    | |- context [greatest_num _ ?x] =>
        destruct (score_clamp_values x) as [s [Es Hs]]
    end.
    exists s. rewrite Es. split; [reflexivity|exact Hs].
  - intros ic H. unfold performance_score.
    destruct (unsubscribe_penalty_value ic) as [p E]. rewrite E.
    cbn [and_then].
    destruct H as [H|[H|[H|H]]]; rewrite H;
      destruct (overall_open_rate ic), (overall_click_rate ic),
        (overall_reply_rate ic), (overall_bounce_rate ic), p;
      try discriminate H; reflexivity.
Qed.

Lemma performance_score_between_0_and_100_witness :
  performance_score
    (mk_instantly_campaign (Some 0) (Some 3) (Some (40 # 1)) None
       (Some (2 # 1)) (Some (1 # 1)))
  = Value (Some (inject_Z 0)).
Proof.
  destruct performance_score_between_0_and_100 as [_ H].
  apply H. right. left. reflexivity.
Defined.

(** [k < u / n * 100] on numerics is [k * n < 100 * u] on integers. *)
Lemma percentage_above (p : Z) (q : positive) (u n : Z) :
  0 < n ->
  Qltb (p # q) (inject_Z u / inject_Z n * inject_Z 100)
  = (p * n <? 100 * u * Z.pos q).
Proof.
  intros Hn. destruct n as [|np|np]; try lia.
  destruct (Z.ltb_spec (p * Z.pos np) (100 * u * Z.pos q)) as [H|H].
  - apply Qltb_lt. unfold Qlt, Qdiv, Qmult, Qinv, inject_Z.
    cbn [Qnum Qden]. rewrite ?Pos2Z.inj_mul. lia.
  - destruct (Qltb (p # q) (inject_Z u / inject_Z (Z.pos np) * inject_Z 100))
      eqn:E; [|reflexivity].
    apply Qltb_lt in E. unfold Qlt, Qdiv, Qmult, Qinv, inject_Z in E.
    cbn [Qnum Qden] in E. rewrite ?Pos2Z.inj_mul in E. lia.
Qed.

(** X20.  The health of a campaign never fails on a division.  With emails
    sent, it is critical exactly when the bounce rate exceeds 10 or the
    unsubscribes exceed 3 in 100 emails sent, warning exactly when it is not
    critical and the bounce rate exceeds 5 or the unsubscribes exceed 3 in
    200 emails sent, and good otherwise.  With no email sent (0 or NULL)
    only the bounce rate counts, and a campaign whose bounce rate is NULL is
    good. *)
Theorem delivery_health_thresholds :
  (forall (ic : instantly_campaign) (b : Q) (n u : Z),
      overall_bounce_rate ic = Some b ->
      total_emails_sent ic = Some n -> 0 < n ->
      total_unsubscribes ic = Some u ->
      delivery_health ic
      = Value (if Qltb (inject_Z 10) b || (3 * n <? 100 * u) then "critical"
               else if Qltb (inject_Z 5) b || (3 * n <? 200 * u)
               then "warning"
               else "good"))
  /\ (forall ic : instantly_campaign,
        nullif (total_emails_sent ic) 0 = None ->
        delivery_health ic
        = Value (if above (overall_bounce_rate ic) 10 then "critical"
                 else if above (overall_bounce_rate ic) 5 then "warning"
                 else "good"))
  /\ (forall ic : instantly_campaign,
        exists h, delivery_health ic = Value h
                  /\ In h ["critical"; "warning"; "good"]).
Proof.
  split; [|split].
  - intros ic b n u Hb Hn Hpos Hu. unfold delivery_health,
      unsubscribe_percentage, numeric_div, nullif.
    rewrite Hb, Hn, Hu.
    destruct (Z.eqb_spec n 0) as [->|Hne]; [lia|].
    cbn [to_numeric option_map]. rewrite Qeq_bool_inject_Z by assumption.
    cbn [and_then num_mul num_op].
    rewrite !is_true_or3. cbn [num_gt cmp3 is_true].
    change (inject_Z 3) with (3 # 1).
    rewrite (percentage_above 3 1 u n Hpos).
    rewrite (percentage_above 15 10 u n Hpos).
    replace (3 * n <? 100 * u * 1) with (3 * n <? 100 * u)
      by (f_equal; lia).
    replace (15 * n <? 100 * u * 10) with (3 * n <? 200 * u).
    + destruct (Qltb (inject_Z 10) b), (Qltb (inject_Z 5) b),
        (3 * n <? 100 * u), (3 * n <? 200 * u); reflexivity.
    + destruct (Z.ltb_spec (3 * n) (200 * u));
        destruct (Z.ltb_spec (15 * n) (100 * u * 10)); try reflexivity; lia.
  - intros ic Hn. unfold delivery_health, unsubscribe_percentage.
    rewrite Hn.
    assert (E : numeric_div (to_numeric (total_unsubscribes ic))
                  (to_numeric None) = Value None)
      by (unfold numeric_div; destruct (to_numeric (total_unsubscribes ic));
          reflexivity).
    rewrite E. cbn [and_then num_mul num_op].
    rewrite !is_true_or3, !is_true_num_gt. cbn [num_gt cmp3 is_true].
    rewrite !orb_false_r. reflexivity.
  - intros ic. unfold delivery_health.
    destruct (unsubscribe_percentage_value ic) as [p E]. rewrite E.
    cbn [and_then]. eexists. split; [reflexivity|].
    repeat match goal with
           | |- context [if ?c then _ else _] => destruct c
           end; simpl; auto.
Qed.

Lemma delivery_health_thresholds_witness :
  delivery_health Sample.campaign = Value "critical".
Proof.
  destruct delivery_health_thresholds as [H _].
  apply (H Sample.campaign (2 # 1) 200 8); reflexivity.
Defined.

Lemma personal_rate_value (num den : option Z) :
  exists q, personal_rate num den = Value q.
Proof.
  unfold personal_rate.
  destruct (is_true (int_gt den (Some 0))) eqn:E; [|eexists; reflexivity].
  destruct den as [d|]; [|discriminate E].
  cbn in E. destruct (Z.gtb_spec d 0); [|discriminate E].
  unfold numeric_div. destruct num as [n|]; cbn;
    [|eexists; reflexivity].
  rewrite Qeq_bool_inject_Z by lia. eexists. reflexivity.
Qed.

Lemma lead_engagement_of_value (now : timestamptz)
    (ii : instantly_integration) :
  exists row, lead_engagement_of now ii = Value row.
Proof.
  unfold lead_engagement_of.
  destruct (personal_rate_value (emails_opened ii) (emails_sent ii))
    as [o Eo].
  destruct (personal_rate_value (emails_clicked ii) (emails_opened ii))
    as [c Ec].
  destruct (personal_rate_value (emails_replied ii) (emails_sent ii))
    as [r Er].
  rewrite Eo, Ec, Er. eexists. reflexivity.
Qed.

Lemma select_rows_value {R V : Type} (f : R -> computed V) (rows : list R) :
  (forall r, exists v, f r = Value v) ->
  exists vs, select_rows f rows = Value vs
             /\ Forall2 (fun r v => f r = Value v) rows vs.
Proof.
  intros Hf. induction rows as [|r rows [vs [E F]]].
  - exists []. split; [reflexivity|constructor].
  - destruct (Hf r) as [v Ev]. exists (v :: vs). split.
    + cbn [select_rows]. rewrite Ev, E. reflexivity.
    + constructor; assumption.
Qed.

Lemma select_rows_inv {R V : Type} (f : R -> computed V) (rows : list R)
    (vs : list V) :
  select_rows f rows = Value vs ->
  Forall2 (fun r v => f r = Value v) rows vs.
Proof.
  revert vs. induction rows as [|r rows IH]; intros vs; cbn [select_rows].
  - intros [= <-]. constructor.
  - destruct (f r) as [v|] eqn:Ev; cbn [and_then]; [|discriminate].
    destruct (select_rows f rows) as [vs'|]; cbn [and_then]; [|discriminate].
    intros [= <-]. constructor; [exact Ev|]. apply IH. reflexivity.
Qed.

Lemma lead_engagement_of_fields (now : timestamptz)
    (ii : instantly_integration) (row : lead_engagement) :
  lead_engagement_of now ii = Value row ->
  le_id row = ii_id ii /\ le_lead_status row = lead_status ii
  /\ le_lead_temperature row = lead_temperature ii
  /\ le_engagement_score row = engagement_score ii
  /\ personal_rate (emails_opened ii) (emails_sent ii)
     = Value (personal_open_rate row)
  /\ personal_rate (emails_clicked ii) (emails_opened ii)
     = Value (personal_click_rate row)
  /\ personal_rate (emails_replied ii) (emails_sent ii)
     = Value (personal_reply_rate row)
  /\ active_last_week row = active_within now 7 (last_activity_at ii)
  /\ active_last_month row = active_within now 30 (last_activity_at ii).
Proof.
  unfold lead_engagement_of.
  destruct (personal_rate (emails_opened ii) (emails_sent ii)) as [o|];
    cbn [and_then]; [|discriminate].
  destruct (personal_rate (emails_clicked ii) (emails_opened ii)) as [c|];
    cbn [and_then]; [|discriminate].
  destruct (personal_rate (emails_replied ii) (emails_sent ii)) as [r|];
    cbn [and_then]; [|discriminate].
  intros [= <-]. cbn. repeat split.
Qed.

Lemma not_unsubscribed_spec (ii : instantly_integration) :
  not_unsubscribed ii = true
  <-> exists s, lead_status ii = Some s /\ s <> LeadStatus.unsubscribed.
Proof.
  unfold not_unsubscribed. destruct (lead_status ii) as [s|]; cbn.
  - destruct s; cbn; split; intros H; try discriminate H;
      try (eexists; split; [reflexivity|discriminate]);
      try reflexivity.
    destruct H as [s [[= <-] Hs]]. contradiction.
  - split; [discriminate|]. intros [s [H _]]. discriminate H.
Qed.

(** X21.  The lead engagement view never fails on a division and shows one
    row for each integration whose lead status is known and is not
    unsubscribed, with the status, temperature and score of the integration
    (the rows are listed here in the order of the table); an integration
    whose lead status is NULL is left out like an unsubscribed one. *)
Theorem lead_engagement_view_rows :
  forall (db : database) (now : timestamptz),
    (exists rows,
        v_instantly_lead_engagement db now = Value rows
        /\ Forall2 (fun ii row =>
                      le_id row = ii_id ii
                      /\ le_lead_status row = lead_status ii
                      /\ le_lead_temperature row = lead_temperature ii
                      /\ le_engagement_score row = engagement_score ii)
                   (filter not_unsubscribed (instantly_integrations db))
                   rows)
    /\ (forall ii : instantly_integration,
          In ii (filter not_unsubscribed (instantly_integrations db))
          <-> In ii (instantly_integrations db)
              /\ exists s, lead_status ii = Some s
                           /\ s <> LeadStatus.unsubscribed).
Proof.
  intros db now. split.
  - unfold v_instantly_lead_engagement.
    destruct (select_rows_value (lead_engagement_of now)
                (filter not_unsubscribed (instantly_integrations db))
                (lead_engagement_of_value now)) as [rows [E F]].
    exists rows. split; [exact E|].
    revert F. apply Forall2_impl_in. intros ii row H.
    apply lead_engagement_of_fields in H. tauto.
  - intros ii. rewrite filter_In, not_unsubscribed_spec. tauto.
Qed.

Lemma lead_engagement_view_rows_witness :
  In Scenario.integration
     (filter not_unsubscribed (instantly_integrations Scenario.engaged_db)).
Proof.
  destruct (lead_engagement_view_rows Scenario.engaged_db Scenario.now)
    as [_ H].
  apply H. split; [left; reflexivity|].
  exists LeadStatus.active. split; [reflexivity|discriminate].
Defined.

(** X22.  A personal rate of the view never fails on a division: it is 0
    when the dividing counter is 0, negative or NULL, and for counters with
    [0 <= num <= den] and [0 < den] it is a percentage between 0 and 100. *)
Theorem personal_rate_is_a_percentage :
  (forall num den : option Z, exists q, personal_rate num den = Value q)
  /\ (forall num den : option Z,
        is_true (int_gt den (Some 0)) = false ->
        personal_rate num den = Value (Some (inject_Z 0)))
  /\ (forall n d : Z,
        0 <= n <= d -> 0 < d ->
        exists q, personal_rate (Some n) (Some d) = Value (Some q)
                  /\ (inject_Z 0 <= q)%Q /\ (q <= inject_Z 100)%Q).
Proof.
  split; [exact personal_rate_value|]. split.
  - intros num den H. unfold personal_rate. rewrite H. reflexivity.
  - intros n d Hn Hd. unfold personal_rate. cbn [int_gt cmp3 is_true].
    destruct (Z.gtb_spec d 0); [|lia].
    unfold numeric_div. cbn [to_numeric option_map].
    rewrite Qeq_bool_inject_Z by lia. cbn [and_then num_mul num_op].
    eexists. split; [reflexivity|].
    destruct (scaled_ratio_bounds n d d (inject_Z 1) Hn ltac:(lia)
                ltac:(discriminate)) as [H0 H1].
    rewrite !Qmult_1_r in H0, H1. split; [exact H0|].
    apply Qle_trans with (inject_Z n / inject_Z d * inject_Z 100)%Q;
      [apply Qle_refl|].
    assert (Hq : (inject_Z n / inject_Z d <= inject_Z 1)%Q).
    { apply Qle_shift_div_r.
      - change 0%Q with (inject_Z 0). rewrite <- Zlt_Qlt. lia.
      - rewrite Qmult_1_l. rewrite <- Zle_Qle. lia. }
    apply Qle_trans with (inject_Z 1 * inject_Z 100)%Q.
    + apply Qmult_le_compat_r; [exact Hq|discriminate].
    + discriminate.
Qed.

Lemma personal_rate_is_a_percentage_witness :
  exists q, personal_rate (Some 50) (Some 100) = Value (Some q)
            /\ (inject_Z 0 <= q)%Q /\ (q <= inject_Z 100)%Q.
Proof.
  destruct personal_rate_is_a_percentage as [_ [_ H]].
  apply (H 50 100); lia.
Defined.

Lemma active_within_shorter (now : timestamptz) (t : option timestamptz) :
  active_within now 7 t = Some true -> active_within now 30 t = Some true.
Proof.
  unfold active_within. destruct t as [x|]; cbn; [|discriminate].
  intros [= H]. f_equal.
  apply Z.gtb_lt in H. apply Z.gtb_lt.
  unfold microseconds_per_day in *. lia.
Qed.

Lemma Forall2_in_r {A B : Type} (P : A -> B -> Prop) (l : list A)
    (l' : list B) (b : B) :
  Forall2 P l l' -> In b l' -> exists a, In a l /\ P a b.
Proof.
  induction 1 as [|x y l l' Hxy _ IH]; intros Hin; [contradiction|].
  destruct Hin as [<-|Hin].
  - exists x. split; [left; reflexivity|exact Hxy].
  - destruct (IH Hin) as [a [Ha Hp]]. exists a. split; [right|]; assumption.
Qed.

(** X23.  In every row of the lead engagement view, a lead flagged active in
    the last week is also flagged active in the last month. *)
Theorem active_last_week_is_active_last_month :
  forall (db : database) (now : timestamptz) (rows : list lead_engagement)
         (row : lead_engagement),
    v_instantly_lead_engagement db now = Value rows ->
    In row rows ->
    active_last_week row = Some true ->
    active_last_month row = Some true.
Proof.
  intros db now rows row E Hin Hw.
  apply select_rows_inv in E.
  destruct (Forall2_in_r _ _ _ _ E Hin) as [ii [_ Hrow]].
  apply lead_engagement_of_fields in Hrow.
  destruct Hrow as [_ [_ [_ [_ [_ [_ [_ [H7 H30]]]]]]]].
  rewrite H30. apply active_within_shorter. rewrite <- H7. exact Hw.
Qed.

Lemma active_last_week_is_active_last_month_witness :
  exists rows row,
    v_instantly_lead_engagement Scenario.engaged_db Scenario.now
    = Value rows
    /\ In row rows /\ active_last_month row = Some true.
Proof.
  destruct (v_instantly_lead_engagement Scenario.engaged_db Scenario.now)
    as [rows|] eqn:E; [|vm_compute in E; discriminate E].
  destruct rows as [|row rows]; [vm_compute in E; discriminate E|].
  exists (row :: rows), row.
  split; [reflexivity|]. split; [left; reflexivity|].
  apply (active_last_week_is_active_last_month Scenario.engaged_db
           Scenario.now (row :: rows) row E (or_introl eq_refl)).
  vm_compute in E. injection E as <- _. reflexivity.
Defined.

(* ------------------------------------------------------------------ *)
(** ** The service package view *)

Lemma count_filter_le {R : Type} (p : R -> bool) (l : list R) :
  0 <= count (filter p l) <= count l.
Proof.
  unfold count. split; [lia|].
  apply Nat2Z.inj_le. induction l as [|a l IH]; [apply le_n|].
  cbn. destruct (p a); cbn; lia.
Qed.

Lemma count_two_filters {R : Type} (p q : R -> bool) (l : list R) :
  (forall r, p r = true -> q r = false) ->
  count (filter p l) + count (filter q l) <= count l.
Proof.
  intros H. unfold count. rewrite <- Nat2Z.inj_add. apply Nat2Z.inj_le.
  induction l as [|a l IH]; [apply le_n|].
  cbn. destruct (p a) eqn:Ep.
  - rewrite (H a Ep). cbn. lia.
  - destruct (q a); cbn; lia.
Qed.

Lemma revenue_is_count_times_price (price : Q) (p : package_opportunity -> bool)
    (l : list package_opportunity) :
  (fold_right Qplus (inject_Z 0)
     (map (fun ao => if p ao then price else inject_Z 0) l)
   == inject_Z (count (filter p l)) * price)%Q.
Proof.
  unfold count. induction l as [|a l IH].
  - cbn. ring.
  - cbn [map fold_right filter]. rewrite IH. destruct (p a).
    + cbn [List.length]. rewrite Nat2Z.inj_succ, <- Z.add_1_r, inject_Z_plus.
      ring.
    + ring.
Qed.

Lemma round_2_percentage (q : Q) :
  (inject_Z 0 <= q)%Q -> (q <= inject_Z 100)%Q ->
  exists r, round_2 (Some q) = Some r
            /\ (inject_Z 0 <= r)%Q /\ (r <= inject_Z 100)%Q.
Proof.
  intros H0 H1. unfold round_2. cbn [option_map].
  eexists. split; [reflexivity|].
  assert (Hr : 0 <= round_half_away (q * inject_Z 100) <= 10000).
  { apply round_half_away_bounds.
    - apply Qmult_le_0_compat; [exact H0|discriminate].
    - apply Qle_trans with (inject_Z 100 * inject_Z 100)%Q; [|discriminate].
      apply Qmult_le_compat_r; [exact H1|discriminate]. }
  split.
  - apply Qdiv_nonneg; [apply inject_Z_nonneg; lia|discriminate].
  - apply Qle_shift_div_r; [reflexivity|].
    rewrite <- inject_Z_mult, <- Zle_Qle. lia.
Qed.

Lemma count_ratio_nonzero (a n : Z) :
  n <> 0 ->
  numeric_div (to_numeric (Some a)) (to_numeric (nullif (Some n) 0))
  = Value (Some (inject_Z a / inject_Z n)%Q).
Proof.
  intros Hn. unfold nullif. destruct (Z.eqb_spec n 0) as [E|_];
    [contradiction|].
  unfold to_numeric, numeric_div. cbn [option_map].
  rewrite Qeq_bool_inject_Z by assumption. reflexivity.
Qed.

Lemma count_ratio_zero (a n : Z) :
  n = 0 ->
  numeric_div (to_numeric (Some a)) (to_numeric (nullif (Some n) 0))
  = Value None.
Proof. intros ->. reflexivity. Qed.

(** X25.  A row of the service package view never fails on a division (the
    divisor is [NULLIF(COUNT(ao.id), 0)]).  Accepted and rejected
    recommendations together never exceed the recommendations; the total
    revenue is the number of accepted recommendations times the price of the
    package; the acceptance rate is NULL for a package with no
    recommendation and a percentage between 0 and 100 otherwise. *)
Theorem package_performance_is_consistent :
  forall (aos : list package_opportunity) (sp : service_package),
    exists row,
      package_performance_of aos sp = Value row
      /\ 0 <= accepted_count row /\ 0 <= rejected_count row
      /\ accepted_count row + rejected_count row <= total_recommendations row
      /\ (total_revenue row
          == inject_Z (accepted_count row) * price_usd sp)%Q
      /\ (total_recommendations row = 0 ->
          acceptance_rate row = None /\ avg_fit_score row = None)
      /\ (0 < total_recommendations row ->
          exists q, acceptance_rate row = Some q
                    /\ (inject_Z 0 <= q)%Q /\ (q <= inject_Z 100)%Q).
Proof.
  intros aos sp. unfold package_performance_of. cbv zeta.
  generalize (joined_opportunities sp aos). intros j.
  pose proof (count_filter_le is_accepted j) as Ha.
  pose proof (count_filter_le is_rejected j) as Hr.
  assert (Hx : count (filter is_accepted j) + count (filter is_rejected j)
               <= count j).
  { apply count_two_filters. intros r. unfold is_accepted, is_rejected.
    destruct (po_status r) as [[]|]; intros H; try discriminate H;
      reflexivity. }
  destruct (Z.eq_dec (count j) 0) as [E0|E0].
  - rewrite count_ratio_zero by assumption. cbn [and_then num_mul num_op round_2 option_map].
    eexists. split; [reflexivity|]. cbn.
    split; [lia|]. split; [lia|]. split; [lia|].
    split; [apply revenue_is_count_times_price|].
    split; [|lia].
    intros _. split; [reflexivity|].
    assert (Hj : j = []).
    { destruct j; [reflexivity|]. unfold count in E0. cbn in E0. lia. }
    rewrite Hj. reflexivity.
  - rewrite count_ratio_nonzero by assumption. cbn [and_then num_mul num_op].
    assert (Hpos : 0 < count j) by lia.
    destruct (scaled_ratio_bounds (count (filter is_accepted j)) (count j)
                (count j) (inject_Z 1) ltac:(lia) ltac:(lia)
                ltac:(discriminate)) as [H0 _].
    rewrite Qmult_1_r in H0.
    assert (H1 : (inject_Z (count (filter is_accepted j)) / inject_Z (count j)
                  * inject_Z 100 <= inject_Z 100)%Q).
    { apply Qle_trans with (inject_Z 1 * inject_Z 100)%Q; [|discriminate].
      apply Qmult_le_compat_r; [|discriminate].
      apply Qle_shift_div_r.
      - change 0%Q with (inject_Z 0). rewrite <- Zlt_Qlt. lia.
      - rewrite Qmult_1_l. rewrite <- Zle_Qle. lia. }
    destruct (round_2_percentage _ H0 H1) as [r [Er Hr']].
    eexists. split; [reflexivity|]. cbn.
    split; [lia|]. split; [lia|]. split; [lia|].
    split; [apply revenue_is_count_times_price|].
    split; [intros E; contradiction|].
    intros _. exists r. split; [exact Er|exact Hr'].
Qed.

Lemma package_performance_is_consistent_witness :
  exists row q,
    package_performance_of Sample.opportunities
      (mk_service_package Tier.professional_7_5k (7500 # 1) true)
    = Value row
    /\ 0 < total_recommendations row
    /\ acceptance_rate row = Some q
    /\ (inject_Z 0 <= q)%Q /\ (q <= inject_Z 100)%Q.
Proof.
  destruct (package_performance_is_consistent Sample.opportunities
              (mk_service_package Tier.professional_7_5k (7500 # 1) true))
    as [row [E [_ [_ [_ [_ [_ H]]]]]]].
  assert (Hpos : 0 < total_recommendations row).
  { vm_compute in E. injection E as <-. reflexivity. }
  destruct (H Hpos) as [q [Eq Hq]].
  exists row, q. split; [exact E|]. split; [exact Hpos|].
  split; [exact Eq|exact Hq].
Defined.

(* ------------------------------------------------------------------ *)
(** ** Letter case in analyze_reply_basic *)

Lemma lower_char_idempotent (c : ascii) : lower_char (lower_char c) = lower_char c.
Proof.
  destruct c as [[] [] [] [] [] [] [] []]; reflexivity.
Qed.

Lemma lower_idempotent (s : string) : lower (lower s) = lower s.
Proof.
  induction s as [|c r IH]; [reflexivity|].
  cbn [lower]. rewrite lower_char_idempotent, IH. reflexivity.
Qed.

(** X26.  The reply analysis reads its input only through [LOWER]: two
    replies that differ in the case of ASCII letters only are classified
    alike, and a reply is classified as its lower-case form is. *)
Theorem reply_analysis_ignores_case :
  (forall s1 s2 : string,
      lower s1 = lower s2 ->
      analyze_reply_basic (Some s1) = analyze_reply_basic (Some s2))
  /\ (forall s : string,
         analyze_reply_basic (Some (lower s)) = analyze_reply_basic (Some s)).
Proof.
  assert (H : forall s1 s2 : string,
             lower s1 = lower s2 ->
             analyze_reply_basic (Some s1) = analyze_reply_basic (Some s2)).
  { intros s1 s2 E. unfold analyze_reply_basic, coalesce. rewrite E.
    reflexivity. }
  split; [exact H|].
  intros s. apply H. apply lower_idempotent.
Qed.

Lemma reply_analysis_ignores_case_witness :
  lower "Not Now, REMOVE me" = lower "not now, remove ME"
  /\ analyze_reply_basic (Some "Not Now, REMOVE me")
     = analyze_reply_basic (Some "not now, remove ME").
Proof.
  split; [reflexivity|].
  destruct reply_analysis_ignores_case as [H _].
  apply (H "Not Now, REMOVE me" "not now, remove ME"). reflexivity.
Defined.
